(** * uptime: a shallow embedding of [uptime/__init__.py]

    The module keeps one global, [__boottime], and offers two public
    operations, [uptime()] and [boottime()], on top of a handful of probes that
    each ask one facility of the operating system.  Everything the probes read
    (pseudo-files, the C library, the clock, the optional modules) is gathered
    in an environment record; the global and the clock position are threaded
    through a state-and-exception monad.

    Modelling conventions:
    - text is a [string] of 8-bit characters, split and parsed with the ASCII
      part of Python 3's rules;
    - text files are read as Python 3 reads them in text mode: CR LF and a
      lone CR arrive as LF;
    - a Python [float] is an extended rational ([FNan], [FInf], [FFin q]):
      [float()] of a token overflows to infinity and underflows to zero where
      binary64 does, and an [int] beyond the range of binary64 makes float
      arithmetic raise [OverflowError]; rounding inside the range and the
      sign of zero are not represented, and the clock readings are taken
      to be ordinary floats, so that no sum of two finite floats
      overflows;
    - [int()] refuses more than 4300 digits, as CPython 3.11 does;
    - [IOError] is [OSError], as in Python 3;
    - a [datetime] object is represented by the timestamp it was built from. *)

From Stdlib Require Import ZArith QArith List String Ascii Bool Lia.
From Stdlib Require Strings.Byte.
Import ListNotations.

Local Open Scope Z_scope.

(** ** Python values *)

Module Py.

(** Python floats, without rounding. *)
Inductive pyfloat : Type :=
| FNan
| FInf (negative : bool)
| FFin (q : Q).

(** The numbers the module handles: [int] and [float]. *)
Inductive num : Type :=
| PyInt (z : Z)
| PyFloat (x : pyfloat).

(** The exceptions that can arise in the module. *)
Inductive exn : Type :=
| OSError
| ValueError
| IndexError
| TypeError
| AttributeError
| NameError
| UnboundLocalError
| NotImplementedError
| RuntimeError
| OverflowError.

(** [IOError] has been an alias of [OSError] since Python 3.3: a handler
    for one catches the other. *)
Abbreviation IOError := OSError (only parsing).

Definition to_float (n : num) : pyfloat :=
  match n with
  | PyInt z => FFin (inject_Z z)
  | PyFloat x => x
  end.

Definition fneg (a : pyfloat) : pyfloat :=
  match a with
  | FNan => FNan
  | FInf s => FInf (negb s)
  | FFin q => FFin (Qred (- q))
  end.

Definition fadd (a b : pyfloat) : pyfloat :=
  match a, b with
  | FNan, _ | _, FNan => FNan
  | FInf s, FInf t => if Bool.eqb s t then FInf s else FNan
  | FInf s, FFin _ => FInf s
  | FFin _, FInf t => FInf t
  | FFin p, FFin q => FFin (Qred (p + q))
  end.

Definition fsub (a b : pyfloat) : pyfloat := fadd a (fneg b).

(** Division by a non-zero finite constant, the only division the module
    performs ([usec / 1000000.] and [ticks / 60.15]). *)
Definition fdivc (a : pyfloat) (d : Q) : pyfloat :=
  match a with
  | FNan => FNan
  | FInf s => FInf (if Qle_bool 0 d then s else negb s)
  | FFin q => FFin (Qred (q / d))
  end.

(** [a < 0] on floats: false on NaN. *)
Definition fltz (a : pyfloat) : bool :=
  match a with
  | FNan => false
  | FInf s => s
  | FFin q => (Qnum q <? 0)%Z
  end.

(** Truth value of a float: everything but zero, NaN included. *)
Definition ftruthy (a : pyfloat) : bool :=
  match a with
  | FNan | FInf _ => true
  | FFin q => negb (Qnum q =? 0)%Z
  end.

(** [n - m] on numbers, as the module uses it: the left operand is always
    a float ([time.time()]), so the result is a float.  This is the
    subtraction of two operands float arithmetic accepts; see [minus]. *)
Definition sub (a b : num) : num := PyFloat (fsub (to_float a) (to_float b)).

(** The magnitude from which binary64 rounds to infinity, and the one up
    to which it rounds to zero. *)
Definition overflow_bound : Q := inject_Z (2 ^ 1024 - 2 ^ 970).
Definition underflow_bound : Q := 1 # (2 ^ 1075).

(** A decimal value as [float()] delivers it. *)
Definition range64 (q : Q) : pyfloat :=
  let a := if (Qnum q <? 0)%Z then (- q)%Q else q in
  if Qle_bool overflow_bound a then FInf (Qnum q <? 0)%Z
  else if Qle_bool a underflow_bound then FFin 0
  else FFin q.

(** Whether float arithmetic accepts [n] as an operand: a [float] always,
    an [int] when it rounds to a finite binary64. *)
Definition convertible (n : num) : bool :=
  match n with
  | PyInt z => (Z.abs z <? 2 ^ 1024 - 2 ^ 970)%Z
  | PyFloat _ => true
  end.

(** [n < 0]. *)
Definition ltz (n : num) : bool :=
  match n with
  | PyInt z => z <? 0
  | PyFloat x => fltz x
  end.

(** Truth value of a number. *)
Definition num_truthy (n : num) : bool :=
  match n with
  | PyInt z => negb (z =? 0)
  | PyFloat x => ftruthy x
  end.

(** Truth value of a number-or-[None]: what [or] tests. *)
Definition truthy (v : option num) : bool :=
  match v with
  | None => false
  | Some n => num_truthy n
  end.

End Py.
Export Py.

(** ** Text: [readline], [split], [startswith], [int], [float] *)

Module Text.

Definition text := list ascii.

Definition newline : ascii := "010"%char.

Definition carriage_return : ascii := "013"%char.

Definition code (c : ascii) : nat := nat_of_ascii c.

(** [str.isspace] on the ASCII range: TAB, LF, VT, FF, CR, FS, GS, RS, US and
    the space. *)
Definition is_space (c : ascii) : bool :=
  let n := code c in
  ((9 <=? n) && (n <=? 13) || (28 <=? n) && (n <=? 32))%nat.

Definition is_digit (c : ascii) : bool :=
  let n := code c in ((48 <=? n) && (n <=? 57))%nat.

Definition digit_val (c : ascii) : Z := Z.of_nat (code c - 48).

(** What a file opened in text mode delivers (universal newlines): CR LF
    and a lone CR are both handed over as LF. *)
Fixpoint universal_newlines (s : text) : text :=
  match s with
  | [] => []
  | c :: r =>
      if Ascii.eqb c carriage_return
      then newline
           :: match r with
              | d :: r' =>
                  if Ascii.eqb d newline
                  then universal_newlines r'
                  else universal_newlines r
              | [] => []
              end
      else c :: universal_newlines r
  end.

(** [f.readline()]: up to and including the first line feed. *)
Fixpoint readline (s : text) : text :=
  match s with
  | [] => []
  | c :: r => if Ascii.eqb c newline then [c] else c :: readline r
  end.

(** The lines a file object iterates over, each with its line feed. *)
Fixpoint lines_from (cur : text) (s : text) : list text :=
  match s with
  | [] => match cur with [] => [] | _ => [rev cur] end
  | c :: r =>
      if Ascii.eqb c newline then rev (c :: cur) :: lines_from [] r
      else lines_from (c :: cur) r
  end.

Definition lines (s : text) : list text := lines_from [] s.

(** [s.split()]: the maximal runs of non-space characters. *)
Fixpoint split_from (cur : text) (s : text) : list text :=
  match s with
  | [] => match cur with [] => [] | _ => [rev cur] end
  | c :: r =>
      if is_space c
      then match cur with
           | [] => split_from [] r
           | _ => rev cur :: split_from [] r
           end
      else split_from (c :: cur) r
  end.

Definition split (s : text) : list text := split_from [] s.

(** [s.startswith(p)]. *)
Fixpoint startswith (p s : text) : bool :=
  match p, s with
  | [], _ => true
  | _ :: _, [] => false
  | a :: p', b :: s' => Ascii.eqb a b && startswith p' s'
  end.

(** After a digit: more digits, each optionally preceded by one underscore. *)
Fixpoint digits_more (s : text) : text * text :=
  match s with
  | c :: r =>
      if is_digit c
      then let (ds, rest) := digits_more r in (c :: ds, rest)
      else if Ascii.eqb c "_"%char
           then match r with
                | d :: r' =>
                    if is_digit d
                    then let (ds, rest) := digits_more r' in (d :: ds, rest)
                    else ([], s)
                | [] => ([], s)
                end
           else ([], s)
  | [] => ([], [])
  end.

(** [digitpart ::= digit (["_"] digit)*]: the digits read (underscores
    dropped) and the rest; no digits when [s] does not start with one. *)
Definition digitpart (s : text) : text * text :=
  match s with
  | c :: r =>
      if is_digit c
      then let (ds, rest) := digits_more r in (c :: ds, rest)
      else ([], s)
  | [] => ([], [])
  end.

Definition digits_value (ds : text) : Z :=
  fold_left (fun acc c => 10 * acc + digit_val c) ds 0.

(** An optional sign: [true] for a minus. *)
Definition sign (s : text) : bool * text :=
  match s with
  | c :: r =>
      if Ascii.eqb c "-"%char then (true, r)
      else if Ascii.eqb c "+"%char then (false, r)
      else (false, s)
  | [] => (false, [])
  end.

Definition apply_sign (neg : bool) (z : Z) : Z := if neg then - z else z.

(** The longest digit string [int()] converts (CPython 3.11 and later,
    [sys.int_max_str_digits]). *)
Definition int_max_str_digits : nat := 4300.

(** [int(tok)] on a token without spaces: [None] stands for [ValueError]. *)
Definition parse_int (tok : text) : option Z :=
  let (neg, s) := sign tok in
  match digitpart s with
  | ((_ :: _) as ds, []) =>
      if (List.length ds <=? int_max_str_digits)%nat
      then Some (apply_sign neg (digits_value ds))
      else None
  | _ => None
  end.

Definition lower (c : ascii) : ascii :=
  let n := code c in
  if ((65 <=? n) && (n <=? 90))%nat then ascii_of_nat (n + 32) else c.

Definition text_eqb (a b : text) : bool :=
  String.eqb (string_of_list_ascii a) (string_of_list_ascii b).

Definition of_string (s : string) : text := list_ascii_of_string s.

(** The text of a file whose bytes are [s], as [open(path, 'r')] reads it. *)
Definition read (s : string) : text := universal_newlines (of_string s).

(** [number ::= [digitpart] "." digitpart | digitpart ["."]]: the integer
    digits, the fraction digits and the rest. *)
Definition number (s : text) : option (text * text * text) :=
  let (ip, r) := digitpart s in
  match r with
  | c :: r' =>
      if Ascii.eqb c "."%char
      then let (fp, r'') := digitpart r' in
           match ip, fp with
           | [], [] => None
           | _, _ => Some (ip, fp, r'')
           end
      else match ip with [] => None | _ => Some (ip, [], r) end
  | [] => match ip with [] => None | _ => Some (ip, [], []) end
  end.

(** [exponent ::= ("e" | "E") [sign] digitpart], then the end of the token. *)
Definition exponent (s : text) : option Z :=
  match s with
  | [] => Some 0
  | c :: r =>
      if Ascii.eqb (lower c) "e"%char
      then let (neg, r') := sign r in
           match digitpart r' with
           | ((_ :: _) as ds, []) => Some (apply_sign neg (digits_value ds))
           | _ => None
           end
      else None
  end.

(** The rational [m * 10^e]. *)
Definition scale10 (m e : Z) : Q :=
  if 0 <=? e then inject_Z (m * 10 ^ e)
  else Qred (Qmake m (Z.to_pos (10 ^ (- e)))).

(** [float(tok)] on a token without spaces: [None] stands for [ValueError]. *)
Definition parse_float (tok : text) : option pyfloat :=
  let (neg, s) := sign tok in
  let w := map lower s in
  if text_eqb w (of_string "inf") || text_eqb w (of_string "infinity")
  then Some (FInf neg)
  else if text_eqb w (of_string "nan") then Some FNan
  else
    match number s with
    | Some (ip, fp, r) =>
        match exponent r with
        | Some e =>
            let m := digits_value (ip ++ fp) in
            Some (range64 (scale10 (apply_sign neg m)
                                   (e - Z.of_nat (List.length fp))))
        | None => None
        end
    | None => None
    end.

End Text.

(** ** [struct]: native integers in a [ctypes] buffer *)

Module Struct.

Definition bytes := list Byte.byte.

(** [ctypes.create_string_buffer(n)] after a C function wrote [out] at its
    start: [buf.raw] is always [n] bytes long. *)
Definition buffer_raw (n : nat) (out : bytes) : bytes :=
  firstn n (out ++ repeat Byte.x00 (n - List.length out)).

Definition le_value (bs : bytes) : Z :=
  fold_right (fun b acc => Z.of_N (Byte.to_N b) + 256 * acc) 0 bs.

(** The [n] bytes at offset [off], read as an unsigned integer in the
    platform's byte order. *)
Definition unsigned_at (big_endian : bool) (off n : nat) (raw : bytes) : Z :=
  let field := firstn n (skipn off raw) in
  le_value (if big_endian then rev field else field).

(** The same bytes read in two's complement. *)
Definition signed_at (big_endian : bool) (off n : nat) (raw : bytes) : Z :=
  let u := unsigned_at big_endian off n raw in
  let w := Z.of_nat (8 * n) in
  if u <? 2 ^ (w - 1) then u else u - 2 ^ w.

End Struct.

(** ** The environment, the state and the monad *)

(** What [ctypes.CDLL] hands back: whether the two entry points exist and
    what they do when called. *)
Record library : Type := {
  has_sysinfo : bool;
  sysinfo_rc : Z;                  (* return value of [sysinfo(buf)] *)
  sysinfo_out : Struct.bytes;      (* what it writes into [buf] *)
  has_sysctlbyname : bool;
  sysctl_size : Z;                 (* [sz.value] after the size query *)
  sysctl_out : Struct.bytes        (* what the second call writes *)
}.

(** How [datetime.fromtimestamp] refuses a finite timestamp, depending on
    the platform and on the value: [ValueError] (the year is out of range),
    [OverflowError] (out of range for [time_t]) or [OSError] (from the C
    library's [localtime]). *)
Inductive rejection : Type :=
| YearOutOfRange
| TimeOutOfRange
| PlatformError.

Definition rejection_exn (r : rejection) : exn :=
  match r with
  | YearOutOfRange => ValueError
  | TimeOutOfRange => OverflowError
  | PlatformError => OSError
  end.

(** Modelled from the spec: the generic POSIX probe and its OS X variant
    ([uptime._posix], a C extension) are "an opaque collaborator returning
    Some/None"; [uptime_posix] and [uptime_osx] are what a call to each
    returns, [None] also standing for the fallback [lambda: None]. *)
Record env : Type := {
  platform : string;               (* [sys.platform] *)
  proc_uptime : option string;     (* [/proc/uptime]; [None]: cannot be opened *)
  proc_stat : option string;       (* [/proc/stat] *)
  ctypes_present : bool;           (* [ctypes] and [struct] were imported *)
  cdll : string -> option library; (* [ctypes.CDLL]; [None]: [OSError] *)
  sizeof_long : nat;               (* size of a native [long]: 4 or 8 *)
  big_endian : bool;
  macos_ticks : option N;          (* [MacOS.GetTicks()], a 32-bit counter;
                                      [None]: no [MacOS] *)
  uptime_posix : option num;
  uptime_osx : option num;
  datetime_present : bool;         (* [datetime] was imported *)
  timestamp_ok : num -> bool;      (* range [fromtimestamp] accepts *)
  timestamp_error : num -> rejection; (* how it refuses the others *)
  clock : nat -> Q                 (* successive readings of [time.time()] *)
}.

(** The functions whose calls are recorded. *)
Inductive call : Type :=
| Call_uptime_linux
| Call_uptime_bsd
| Call_uptime_mac
| Call_uptime_posix
| Call_uptime_osx
| Call_boottime_linux
| Call_time.

(** The module's global [__boottime], the position of the clock and the
    calls made so far, oldest first.  The last two are never read back by
    the module. *)
Record state : Type := {
  boottime_cache : option num;
  ticks : nat;
  calls : list call
}.

Inductive result (A : Type) : Type :=
| Ok (a : A)
| Raise (e : exn).
Arguments Ok {A} a.
Arguments Raise {A} e.

Definition M (A : Type) : Type := state -> result A * state.

Definition ret {A} (a : A) : M A := fun s => (Ok a, s).

Definition raise {A} (e : exn) : M A := fun s => (Raise e, s).

Definition bind {A B} (m : M A) (k : A -> M B) : M B :=
  fun s =>
    match m s with
    | (Ok a, s') => k a s'
    | (Raise e, s') => (Raise e, s')
    end.

Declare Scope py_scope.
Delimit Scope py_scope with py.
Notation "x <- m ;; k" := (bind m (fun x => k))
  (at level 61, m at next level, right associativity) : py_scope.
Notation "m ;; k" := (bind m (fun _ => k))
  (at level 61, right associativity) : py_scope.
Local Open Scope py_scope.

(** [try: x = m / except ...: h / else: k x]: the handlers [h] see the
    exceptions of [m] only; an exception without a handler goes on. *)
Definition try_ {A B} (m : M A) (h : exn -> option (M B)) (k : A -> M B) : M B :=
  fun s =>
    match m s with
    | (Ok a, s') => k a s'
    | (Raise e, s') =>
        match h e with
        | Some r => r s'
        | None => (Raise e, s')
        end
    end.

Definition get_boottime : M (option num) := fun s => (Ok (boottime_cache s), s).

Definition set_boottime (v : option num) : M unit :=
  fun s => (Ok tt, {| boottime_cache := v; ticks := ticks s; calls := calls s |}).

Definition record (c : call) : M unit :=
  fun s => (Ok tt, {| boottime_cache := boottime_cache s; ticks := ticks s;
                      calls := calls s ++ [c] |}).

Definition result_of {A} (r : result A * state) : result A := fst r.
Definition state_of {A} (r : result A * state) : state := snd r.

(** ** The program *)

(** The probes [uptime()] chooses among. *)
Inductive probe : Type :=
| Linux
| Bsd
| Mac
| Posix
| Osx.

Definition datetime : Type := num.

Section Program.

Variable e : env.

(** [time.time()]. *)
Definition time_time : M num :=
  fun s =>
    (Ok (PyFloat (FFin (clock e (ticks s)))),
     {| boottime_cache := boottime_cache s; ticks := S (ticks s);
        calls := calls s ++ [Call_time] |}).

(** [a - b] with [a] a float: [OverflowError] when [b] is an [int] too
    large to convert. *)
Definition minus (a b : num) : M num :=
  if convertible b then ret (sub a b) else raise OverflowError.

(** [open(path, 'r')], then the whole text, with the line endings text
    mode delivers. *)
Definition open (file : option string) : M Text.text :=
  match file with
  | Some s => ret (Text.read s)
  | None => raise IOError
  end.

(** [l[i]]. *)
Definition item {A} (l : list A) (i : nat) : M A :=
  match nth_error l i with
  | Some x => ret x
  | None => raise IndexError
  end.

(** [float(tok)]. *)
Definition float_ (tok : Text.text) : M num :=
  match Text.parse_float tok with
  | Some x => ret (PyFloat x)
  | None => raise ValueError
  end.

(** [int(tok)]. *)
Definition int_ (tok : Text.text) : M num :=
  match Text.parse_int tok with
  | Some z => ret (PyInt z)
  | None => raise ValueError
  end.

(** [ctypes.CDLL(name)]: [AttributeError] when [ctypes] is [None]. *)
Definition CDLL (name : string) : M library :=
  if ctypes_present e
  then match cdll e name with
       | Some l => ret l
       | None => raise OSError
       end
  else raise AttributeError.

(** [MacOS.GetTicks()]: [NameError] when [MacOS] was not imported. *)
Definition GetTicks : M num :=
  match macos_ticks e with
  | Some n => ret (PyInt (Z.of_N n))
  | None => raise NameError
  end.

(** [datetime.fromtimestamp(v)]: what it returns or raises.  [None] is a
    [TypeError], NaN a [ValueError], an infinity an [OverflowError]; a
    finite number is accepted or refused by the platform. *)
Definition fromtimestamp_result (v : option num) : result datetime :=
  match v with
  | None => Raise TypeError
  | Some (PyFloat FNan) => Raise ValueError
  | Some (PyFloat (FInf _)) => Raise OverflowError
  | Some n =>
      if timestamp_ok e n then Ok n
      else Raise (rejection_exn (timestamp_error e n))
  end.

Definition fromtimestamp (v : option num) : M datetime :=
  fun s => (fromtimestamp_result v, s).

(** The first [try] of [_uptime_linux]: the procfs read. *)
Definition procfs_read : M (option num) :=
  f <- open (proc_uptime e);;
  tok <- item (Text.split (Text.readline f)) 0;;
  up <- float_ tok;;
  ret (Some up).

(** [_uptime_linux] once [libc] is loaded. *)
Definition sysinfo_read (libc : library) : M (option num) :=
  if negb (has_sysinfo libc) then ret None
  else
    let raw := Struct.buffer_raw 128 (sysinfo_out libc) in
    if sysinfo_rc libc <? 0 then ret None
    else
      let up := Struct.signed_at (big_endian e) 0 (sizeof_long e) raw in
      ret (if up <? 0 then None else Some (PyInt up)).

Definition _uptime_linux : M (option num) :=
  record Call_uptime_linux;;
  try_ procfs_read
    (fun x =>
       match x with
       | IOError | ValueError =>
           Some
             (try_ (CDLL "libc.so")
                (fun x =>
                   match x with
                   | AttributeError => Some (ret None)
                   | OSError =>
                       Some
                         (try_ (CDLL "libc.so.6")
                            (fun x =>
                               match x with
                               | OSError => Some (ret None)
                               | _ => None
                               end)
                            sysinfo_read)
                   | _ => None
                   end)
                sysinfo_read)
       | _ => None
       end)
    ret.

(** The [for] loop of [_boottime_linux]. *)
Fixpoint scan_btime (ls : list Text.text) : M unit :=
  match ls with
  | [] => ret tt
  | line :: rest =>
      (if Text.startswith (Text.of_string "btime") line
       then tok <- item (Text.split line) 1;;
            b <- int_ tok;;
            set_boottime (Some b)
       else ret tt);;
      scan_btime rest
  end.

Definition _boottime_linux : M (option datetime) :=
  record Call_boottime_linux;;
  try_
    (f <- open (proc_stat e);;
     scan_btime (Text.lines f);;
     (if datetime_present e then ret tt else raise NotImplementedError);;
     b <- get_boottime;;
     fromtimestamp b)
    (fun x =>
       match x with
       | IOError | IndexError => Some (ret None)
       | _ => None
       end)
    (fun d => ret (Some d)).

(** The boot instant [_uptime_bsd] builds from the answer to
    [kern.boottime]: [sec + usec / 1000000.], with [usec] dropped when it
    exceeds a million. *)
Definition kern_boottime (libc : library) : num :=
  let raw :=
    Struct.buffer_raw (Z.to_nat (sysctl_size libc)) (sysctl_out libc) in
  let sec := Struct.unsigned_at (big_endian e) 0 (sizeof_long e) raw in
  let usec :=
    Struct.unsigned_at (big_endian e) (sizeof_long e) (sizeof_long e) raw in
  let usec := if usec >? 1000000 then PyFloat (FFin 0) else PyInt usec in
  PyFloat (fadd (to_float (PyInt sec)) (fdivc (to_float usec) 1000000)).

(** [_uptime_bsd] once [libc] is loaded. *)
Definition sysctl_read (libc : library) : M (option num) :=
  if negb (has_sysctlbyname libc) then ret None
  else if negb (sysctl_size libc =? Z.of_nat (2 * sizeof_long e)) then ret None
  else
    set_boottime (Some (kern_boottime libc));;
    now <- time_time;;
    b <- get_boottime;;
    match b with
    | Some b =>
        up <- minus now b;;
        ret (if ltz up then None else Some up)
    | None => raise TypeError
    end.

Definition _uptime_bsd : M (option num) :=
  record Call_uptime_bsd;;
  try_ (CDLL "libc.so")
    (fun x =>
       match x with
       | AttributeError => Some (ret None)
       | OSError =>
           Some
             (try_ (CDLL "libc.dylib")
                (fun x =>
                   match x with
                   | OSError => Some (ret None)
                   | _ => None
                   end)
                sysctl_read)
       | _ => None
       end)
    sysctl_read.

Definition _uptime_mac : M (option num) :=
  record Call_uptime_mac;;
  try_
    (t <- GetTicks;;
     ret (Some (PyFloat (fdivc (to_float t) (1203 # 20)))))
    (fun x =>
       match x with
       | NameError => Some (ret None)
       | _ => None
       end)
    ret.

Definition _uptime_posix : M (option num) :=
  record Call_uptime_posix;;
  ret (uptime_posix e).

Definition _uptime_osx : M (option num) :=
  record Call_uptime_osx;;
  ret (uptime_osx e).

Definition run (p : probe) : M (option num) :=
  match p with
  | Linux => _uptime_linux
  | Bsd => _uptime_bsd
  | Mac => _uptime_mac
  | Posix => _uptime_posix
  | Osx => _uptime_osx
  end.

(** The table of [uptime()], with its default. *)
Definition preferred (name : string) : probe :=
  if String.eqb name "linux" then Linux
  else if String.eqb name "linux-armv71" then Linux
  else if String.eqb name "linux2" then Linux
  else if String.eqb name "mac" then Mac
  else Bsd.

(** [a or b]: [b] is evaluated only when [a] is falsy. *)
Definition or_ (a b : M (option num)) : M (option num) :=
  x <- a;;
  if truthy x then ret x else b.

Definition uptime : M (option num) :=
  b <- get_boottime;;
  match b with
  | Some b => now <- time_time;; up <- minus now b;; ret (Some up)
  | None =>
      or_ (run (preferred (platform e)))
        (or_ _uptime_bsd
           (or_ _uptime_linux
              (or_ _uptime_posix
                 (or_ _uptime_mac _uptime_osx))))
  end.

(** The end of [boottime()], from the second test of [__boottime] on;
    [up] is the local variable, [None] while it is unbound. *)
Definition boottime_rest (up : option num) : M (option datetime) :=
  b <- get_boottime;;
  (match b with
   | None => _boottime_linux;; ret tt
   | Some _ => ret tt
   end);;
  (if datetime_present e then ret tt else raise RuntimeError);;
  b <- get_boottime;;
  v <- (if truthy b then ret b
        else
          now <- time_time;;
          match up with
          | Some up => v <- minus now up;; ret (Some v)
          | None => raise UnboundLocalError
          end);;
  d <- fromtimestamp v;;
  ret (Some d).

Definition boottime : M (option datetime) :=
  b <- get_boottime;;
  match b with
  | None =>
      up <- uptime;;
      match up with
      | None => ret None
      | Some up => boottime_rest (Some up)
      end
  | Some _ => boottime_rest None
  end.

End Program.

(** ** Concrete environments *)

Module Scenario.
Local Open Scope string_scope.

Definition nl : string := String Text.newline EmptyString.

Definition cr : string := String Text.carriage_return EmptyString.

(** The module just imported: [__boottime = None], nothing called yet. *)
Definition fresh : state :=
  {| boottime_cache := None; ticks := 0; calls := [] |}.

(** A clock that starts at 1000 s and advances one second per reading. *)
Definition clock1000 (n : nat) : Q := inject_Z (1000 + Z.of_nat n).

(** A machine with nothing to ask: unknown platform, no procfs, no [ctypes],
    no [MacOS], no POSIX extension. *)
Definition bare : env :=
  {| platform := "unknown";
     proc_uptime := None;
     proc_stat := None;
     ctypes_present := false;
     cdll := fun _ => None;
     sizeof_long := 8;
     big_endian := false;
     macos_ticks := None;
     uptime_posix := None;
     uptime_osx := None;
     datetime_present := true;
     timestamp_ok := fun _ => true;
     timestamp_error := fun _ => YearOutOfRange;
     clock := clock1000 |}.

Definition with_platform (name : string) (e : env) : env :=
  {| platform := name;
     proc_uptime := proc_uptime e;
     proc_stat := proc_stat e;
     ctypes_present := ctypes_present e;
     cdll := cdll e;
     sizeof_long := sizeof_long e;
     big_endian := big_endian e;
     macos_ticks := macos_ticks e;
     uptime_posix := uptime_posix e;
     uptime_osx := uptime_osx e;
     datetime_present := datetime_present e;
     timestamp_ok := timestamp_ok e;
     timestamp_error := timestamp_error e;
     clock := clock e |}.

(** [e] with the two pseudo-files replaced. *)
Definition with_procfs (up st : option string) (e : env) : env :=
  {| platform := platform e;
     proc_uptime := up;
     proc_stat := st;
     ctypes_present := ctypes_present e;
     cdll := cdll e;
     sizeof_long := sizeof_long e;
     big_endian := big_endian e;
     macos_ticks := macos_ticks e;
     uptime_posix := uptime_posix e;
     uptime_osx := uptime_osx e;
     datetime_present := datetime_present e;
     timestamp_ok := timestamp_ok e;
     timestamp_error := timestamp_error e;
     clock := clock e |}.

(** [e] with the results of the two POSIX probes replaced. *)
Definition with_posix (px ox : option num) (e : env) : env :=
  {| platform := platform e;
     proc_uptime := proc_uptime e;
     proc_stat := proc_stat e;
     ctypes_present := ctypes_present e;
     cdll := cdll e;
     sizeof_long := sizeof_long e;
     big_endian := big_endian e;
     macos_ticks := macos_ticks e;
     uptime_posix := px;
     uptime_osx := ox;
     datetime_present := datetime_present e;
     timestamp_ok := timestamp_ok e;
     timestamp_error := timestamp_error e;
     clock := clock e |}.

(** [e] with [ctypes] present and [libc.so] resolving to [l]. *)
Definition with_libc (l : library) (e : env) : env :=
  {| platform := platform e;
     proc_uptime := proc_uptime e;
     proc_stat := proc_stat e;
     ctypes_present := true;
     cdll := fun name => if String.eqb name "libc.so" then Some l else None;
     sizeof_long := sizeof_long e;
     big_endian := big_endian e;
     macos_ticks := macos_ticks e;
     uptime_posix := uptime_posix e;
     uptime_osx := uptime_osx e;
     datetime_present := datetime_present e;
     timestamp_ok := timestamp_ok e;
     timestamp_error := timestamp_error e;
     clock := clock e |}.

(** [e] with another range for [datetime.fromtimestamp]. *)
Definition with_range (ok : num -> bool) (err : num -> rejection) (e : env)
  : env :=
  {| platform := platform e;
     proc_uptime := proc_uptime e;
     proc_stat := proc_stat e;
     ctypes_present := ctypes_present e;
     cdll := cdll e;
     sizeof_long := sizeof_long e;
     big_endian := big_endian e;
     macos_ticks := macos_ticks e;
     uptime_posix := uptime_posix e;
     uptime_osx := uptime_osx e;
     datetime_present := datetime_present e;
     timestamp_ok := ok;
     timestamp_error := err;
     clock := clock e |}.

Definition byte_of (z : Z) : Byte.byte :=
  match Byte.of_N (Z.to_N (z mod 256)) with
  | Some b => b
  | None => Byte.x00
  end.

(** [n] bytes, least significant first: [struct.pack] on a little-endian
    machine. *)
Fixpoint pack_le (n : nat) (z : Z) : Struct.bytes :=
  match n with
  | O => []
  | S n' => byte_of z :: pack_le n' (z / 256)
  end.

(** A BSD C library whose [kern.boottime] is [(sec, usec)], 8-byte longs. *)
Definition bsd_libc (sec usec : Z) : library :=
  {| has_sysinfo := false;
     sysinfo_rc := -1;
     sysinfo_out := [];
     has_sysctlbyname := true;
     sysctl_size := 16;
     sysctl_out := (pack_le 8 sec ++ pack_le 8 usec)%list |}.

(** A Linux C library whose [sysinfo] reports [up] seconds. *)
Definition linux_libc (up : Z) : library :=
  {| has_sysinfo := true;
     sysinfo_rc := 0;
     sysinfo_out := pack_le 8 up;
     has_sysctlbyname := false;
     sysctl_size := 0;
     sysctl_out := [] |}.

(** Linux with the status files of the specification's scenarios. *)
Definition linux_box : env :=
  with_platform "linux"
    (with_procfs (Some ("12345.67 7890.12" ++ nl))
                 (Some ("cpu  1 2 3 4" ++ nl ++ "btime 1700000000" ++ nl))
                 bare).

(** A Linux machine that booted when its clock read the epoch. *)
Definition epoch_box : env :=
  with_platform "linux"
    (with_procfs (Some ("5.00 4.00" ++ nl)) (Some ("btime 0" ++ nl)) bare).

(** A Linux machine with [/proc/uptime] and no [/proc/stat]. *)
Definition no_stat_box : env :=
  with_platform "linux" (with_procfs (Some ("250.5 100.0" ++ nl)) None bare).

(** An unknown platform, just booted: [/proc/uptime] reads zero. *)
Definition zero_box : env :=
  with_procfs (Some ("0.00 0.00" ++ nl)) None bare.

(** An unknown platform whose [/proc/uptime] reads [nan]. *)
Definition nan_box : env :=
  with_procfs (Some ("nan 0.00" ++ nl)) None bare.

(** A machine with both a BSD C library (boot at 400 s) and the status
    files of [linux_box]. *)
Definition both_box : env := with_libc (bsd_libc 400 0) linux_box.

(** A Linux machine whose [/proc/uptime] holds a negative number. *)
Definition negative_box : env :=
  with_platform "linux" (with_procfs (Some ("-5.0 0.0" ++ nl)) None bare).

End Scenario.

(** ** Auxiliary notions for the statements *)

(** The probes [ps], run one after the other from [s], each return a falsy
    value ([None] or zero) without raising, and leave the state [s']. *)
Inductive falls_through (e : env) : list probe -> state -> state -> Prop :=
| falls_nil : forall s, falls_through e [] s s
| falls_cons : forall p ps v s s1 s2,
    run e p s = (Ok v, s1) ->
    truthy v = false ->
    falls_through e ps s1 s2 ->
    falls_through e (p :: ps) s s2.

(** [run p1 or run p2 or ... or run pn]. *)
Fixpoint or_chain (e : env) (ps : list probe) : M (option num) :=
  match ps with
  | [] => ret None
  | [p] => run e p
  | p :: ps' => or_ (run e p) (or_chain e ps')
  end.

(** The state [s] with [__boottime] bound to [b]. *)
Definition cached (b : num) (s : state) : state :=
  {| boottime_cache := Some b; ticks := ticks s; calls := calls s |}.

(** [m] leaves [__boottime] as it found it, or leaves in it a value that
    satisfies [W]. *)
Definition writes_only {A} (W : option num -> Prop) (m : M A) : Prop :=
  forall s,
    boottime_cache (state_of (m s)) = boottime_cache s
    \/ W (boottime_cache (state_of (m s))).

(** [m] never changes [__boottime]. *)
Definition keeps_boottime {A} (m : M A) : Prop :=
  forall s, boottime_cache (state_of (m s)) = boottime_cache s.

(** The instants the BSD probe can store: [kern.boottime] as answered by
    one of the two libraries it loads. *)
Definition kern_instant (e : env) (c : option num) : Prop :=
  exists libc,
    (cdll e "libc.so" = Some libc \/ cdll e "libc.dylib" = Some libc)
    /\ c = Some (kern_boottime e libc).

(** The instants the direct Linux read can store: the integer after
    [btime] on a line of [/proc/stat]. *)
Definition btime_instant (e : env) (c : option num) : Prop :=
  exists content line tok z,
    proc_stat e = Some content
    /\ In line (Text.lines (Text.read content))
    /\ Text.startswith (Text.of_string "btime") line = true
    /\ nth_error (Text.split line) 1 = Some tok
    /\ Text.parse_int tok = Some z
    /\ c = Some (PyInt z).

(** Every probe, whenever it is called, returns a falsy value. *)
Definition every_probe_falsy (e : env) : Prop :=
  forall p s, exists v s', run e p s = (Ok v, s') /\ truthy v = false.

(** The state [s] once a call to [c] is in the log. *)
Definition logged (c : call) (s : state) : state :=
  {| boottime_cache := boottime_cache s; ticks := ticks s;
     calls := calls s ++ [c] |}.

(** [/proc/uptime] can be opened and its first line holds no token. *)
Definition blank_uptime (e : env) : Prop :=
  exists content,
    proc_uptime e = Some content
    /\ Text.split (Text.readline (Text.read content)) = [].

(** The first token of [/proc/uptime], when the file opens and has one. *)
Definition uptime_token (e : env) : option Text.text :=
  match proc_uptime e with
  | Some content =>
      nth_error (Text.split (Text.readline (Text.read content))) 0
  | None => None
  end.

(** [line.startswith('btime')]. *)
Definition btime_line (line : Text.text) : bool :=
  Text.startswith (Text.of_string "btime") line.

(** A [btime] line whose second token is an integer. *)
Definition btime_value (line : Text.text) : option Z :=
  match nth_error (Text.split line) 1 with
  | Some tok => Text.parse_int tok
  | None => None
  end.

(** [None], or a number that is not negative. *)
Definition not_negative (v : option num) : Prop :=
  match v with
  | None => True
  | Some up => ltz up = false
  end.

(** [return datetime.fromtimestamp(v)] in a function that returns a
    [datetime] or [None]. *)
Definition returned (r : result datetime) : result (option datetime) :=
  match r with
  | Ok d => Ok (Some d)
  | Raise x => Raise x
  end.

(** The same [return] inside the [try] of [_boottime_linux]: its handler
    turns [OSError] and [IndexError] into [None]. *)
Definition returned_or_none (r : result datetime) : result (option datetime) :=
  match r with
  | Ok d => Ok (Some d)
  | Raise OSError | Raise IndexError => Ok None
  | Raise x => Raise x
  end.

(** The C library [_uptime_bsd] ends up with: [libc.so], else
    [libc.dylib]; none without [ctypes]. *)
Definition bsd_library (e : env) : option library :=
  if ctypes_present e
  then match cdll e "libc.so" with
       | Some l => Some l
       | None => cdll e "libc.dylib"
       end
  else None.

(** No line of [ls] starts with [btime]. *)
Definition no_btime (ls : list Text.text) : bool :=
  forallb (fun line => negb (btime_line line)) ls.

(** ** Checks of the embedding on concrete inputs *)

Module TextTests.
Import Text Scenario.
Local Open Scope string_scope.

Example split_spaces :
  split (of_string ("12345.67 7890.12" ++ nl))
  = [of_string "12345.67"; of_string "7890.12"].
Proof. reflexivity. Qed.

Example split_blank : split (of_string ("  " ++ nl)) = [].
Proof. reflexivity. Qed.

Example readline_first :
  readline (of_string ("ab" ++ nl ++ "cd" ++ nl)) = of_string ("ab" ++ nl).
Proof. reflexivity. Qed.

Example readline_after_cr :
  readline (read (cr ++ "5.0" ++ nl)) = of_string nl.
Proof. reflexivity. Qed.

Example lines_universal :
  lines (read ("cpu 1" ++ cr ++ "btime 5" ++ cr ++ nl ++ "intr 7"))
  = [of_string ("cpu 1" ++ nl); of_string ("btime 5" ++ nl);
     of_string "intr 7"].
Proof. reflexivity. Qed.

Example lines_two :
  lines (of_string ("ab" ++ nl ++ "cd")) = [of_string ("ab" ++ nl); of_string "cd"].
Proof. reflexivity. Qed.

Example float_decimal :
  parse_float (of_string "12345.67") = Some (FFin (1234567 # 100)).
Proof. reflexivity. Qed.

Example float_exponent :
  parse_float (of_string "-1.5E3") = Some (FFin (-1500 # 1)).
Proof. reflexivity. Qed.

Example float_point_only : parse_float (of_string ".") = None.
Proof. reflexivity. Qed.

Example float_trailing_point : parse_float (of_string "7.") = Some (FFin (7 # 1)).
Proof. reflexivity. Qed.

Example float_leading_point : parse_float (of_string ".5e1") = Some (FFin (5 # 1)).
Proof. reflexivity. Qed.

Example float_underscore : parse_float (of_string "1_0.2_5") = Some (FFin (41 # 4)).
Proof. reflexivity. Qed.

Example float_bad_underscore : parse_float (of_string "1__0") = None.
Proof. reflexivity. Qed.

Example float_overflow :
  parse_float (of_string "1e400") = Some (FInf false)
  /\ parse_float (of_string "-1e400") = Some (FInf true).
Proof. split; vm_compute; reflexivity. Qed.

Example float_underflow :
  parse_float (of_string "1e-400") = Some (FFin 0).
Proof. vm_compute. reflexivity. Qed.

Example float_largest :
  parse_float (of_string "1.7976931348623157e308")
  = Some (FFin (inject_Z (17976931348623157 * 10 ^ 292))).
Proof. vm_compute. reflexivity. Qed.

Example float_inf : parse_float (of_string "-Infinity") = Some (FInf true).
Proof. reflexivity. Qed.

Example float_word : parse_float (of_string "up") = None.
Proof. reflexivity. Qed.

Example int_plain : parse_int (of_string "1700000000") = Some 1700000000.
Proof. reflexivity. Qed.

Example int_signed : parse_int (of_string "-12") = Some (-12).
Proof. reflexivity. Qed.

Example int_float : parse_int (of_string "1.5") = None.
Proof. reflexivity. Qed.

End TextTests.

Module ScenarioTests.
Import Scenario.
Local Open Scope string_scope.

Example scenario_procfs :
  result_of (_uptime_linux linux_box fresh)
  = Ok (Some (PyFloat (FFin (1234567 # 100)))).
Proof. reflexivity. Qed.

Example scenario_btime :
  _boottime_linux linux_box fresh
  = (Ok (Some (PyInt 1700000000)),
     {| boottime_cache := Some (PyInt 1700000000); ticks := 0;
        calls := [Call_boottime_linux] |}).
Proof. reflexivity. Qed.

Example scenario_nothing :
  result_of (uptime bare fresh) = Ok None
  /\ result_of (boottime bare fresh) = Ok None.
Proof. split; reflexivity. Qed.

Example scenario_bsd :
  _uptime_bsd (with_libc (bsd_libc 400 500000) bare) fresh
  = (Ok (Some (PyFloat (FFin (1199 # 2)))),
     {| boottime_cache := Some (PyFloat (FFin (801 # 2))); ticks := 1;
        calls := [Call_uptime_bsd; Call_time] |}).
Proof. vm_compute. reflexivity. Qed.

Example scenario_bsd_usec_quirk :
  boottime_cache
    (state_of (_uptime_bsd (with_libc (bsd_libc 400 1000001) bare) fresh))
  = Some (PyFloat (FFin (400 # 1))).
Proof. vm_compute. reflexivity. Qed.

Example scenario_sysinfo :
  result_of (_uptime_linux (with_libc (linux_libc 86400) bare) fresh)
  = Ok (Some (PyInt 86400)).
Proof. vm_compute. reflexivity. Qed.

Example scenario_sysinfo_negative :
  result_of (_uptime_linux (with_libc (linux_libc (-3)) bare) fresh) = Ok None.
Proof. vm_compute. reflexivity. Qed.

Example scenario_boottime_linux :
  boottime linux_box fresh
  = (Ok (Some (PyInt 1700000000)),
     {| boottime_cache := Some (PyInt 1700000000); ticks := 0;
        calls := [Call_uptime_linux; Call_boottime_linux] |}).
Proof. vm_compute. reflexivity. Qed.

(** A [btime] the platform's [localtime] refuses: the [OSError] is
    swallowed, the probe returns [None] and [__boottime] keeps the value. *)
Example scenario_btime_refused :
  _boottime_linux
    (with_range (fun _ => false) (fun _ => PlatformError) linux_box) fresh
  = (Ok None,
     {| boottime_cache := Some (PyInt 1700000000); ticks := 0;
        calls := [Call_boottime_linux] |}).
Proof. vm_compute. reflexivity. Qed.

(** A first line ended by a lone CR: the second line is not read. *)
Example scenario_cr_blank :
  result_of
    (_uptime_linux (with_procfs (Some (cr ++ "5.0" ++ nl)) None bare) fresh)
  = Raise IndexError.
Proof. vm_compute. reflexivity. Qed.

(** A [btime] line after a lone CR is a line of its own. *)
Example scenario_cr_btime :
  boottime_cache
    (state_of
       (_boottime_linux
          (with_procfs None (Some ("cpu 1" ++ cr ++ "btime 5" ++ nl)) bare)
          fresh))
  = Some (PyInt 5).
Proof. vm_compute. reflexivity. Qed.

(** An integer beyond the range of a float in [__boottime]. *)
Example scenario_cached_overflow :
  result_of (uptime bare (cached (PyInt (10 ^ 400)) fresh))
  = Raise OverflowError.
Proof. vm_compute. reflexivity. Qed.

End ScenarioTests.

(** ** Who writes [__boottime] *)

Local Open Scope py_scope.

Create HintDb frame.

Section Frame.

Variable e : env.
Variable W : option num -> Prop.

Lemma writes_ret : forall A (a : A), writes_only W (ret a).
Proof. intros A a s. left. reflexivity. Qed.

Lemma writes_raise : forall A x, writes_only W (@raise A x).
Proof. intros A x s. left. reflexivity. Qed.

Lemma writes_record : forall c, writes_only W (record c).
Proof. intros c s. left. reflexivity. Qed.

Lemma writes_get : writes_only W get_boottime.
Proof. intros s. left. reflexivity. Qed.

Lemma writes_time : writes_only W (time_time e).
Proof. intros s. left. reflexivity. Qed.

Lemma writes_minus : forall a b, writes_only W (minus a b).
Proof.
  intros a b s. left. unfold minus. destruct (convertible b); reflexivity.
Qed.

Lemma writes_fromtimestamp : forall v, writes_only W (fromtimestamp e v).
Proof. intros v s. left. reflexivity. Qed.

Lemma writes_set : forall v, W v -> writes_only W (set_boottime v).
Proof. intros v Hv s. right. exact Hv. Qed.

Lemma writes_bind : forall A B (m : M A) (k : A -> M B),
  writes_only W m ->
  (forall a, writes_only W (k a)) ->
  writes_only W (bind m k).
Proof.
  intros A B m k Hm Hk s. unfold bind, state_of in *.
  specialize (Hm s). destruct (m s) as [[a | x] s1]; simpl in *.
  - specialize (Hk a s1). destruct (k a s1) as [r s2]; simpl in *.
    destruct Hk as [Hk | Hk]; [ | right; exact Hk].
    rewrite Hk. exact Hm.
  - exact Hm.
Qed.

Lemma writes_try : forall A B (m : M A) (h : exn -> option (M B)) (k : A -> M B),
  writes_only W m ->
  (forall x r, h x = Some r -> writes_only W r) ->
  (forall a, writes_only W (k a)) ->
  writes_only W (try_ m h k).
Proof.
  intros A B m h k Hm Hh Hk s. unfold try_, state_of in *.
  specialize (Hm s). destruct (m s) as [[a | x] s1]; simpl in *.
  - specialize (Hk a s1). destruct (k a s1) as [r s2]; simpl in *.
    destruct Hk as [Hk | Hk]; [ | right; exact Hk].
    rewrite Hk. exact Hm.
  - destruct (h x) as [r | ] eqn:Hx; simpl; [ | exact Hm].
    specialize (Hh x r Hx s1). destruct (r s1) as [r' s2]; simpl in *.
    destruct Hh as [Hh | Hh]; [ | right; exact Hh].
    rewrite Hh. exact Hm.
Qed.

Lemma writes_open : forall file, writes_only W (open file).
Proof. intros [c | ]; [apply writes_ret | apply writes_raise]. Qed.

Lemma writes_item : forall A (l : list A) i, writes_only W (item l i).
Proof.
  intros A l i. unfold item.
  destruct (nth_error l i); [apply writes_ret | apply writes_raise].
Qed.

Lemma writes_float : forall tok, writes_only W (float_ tok).
Proof.
  intros tok. unfold float_.
  destruct (Text.parse_float tok); [apply writes_ret | apply writes_raise].
Qed.

Lemma writes_int : forall tok, writes_only W (int_ tok).
Proof.
  intros tok. unfold int_.
  destruct (Text.parse_int tok); [apply writes_ret | apply writes_raise].
Qed.

Lemma writes_CDLL : forall name, writes_only W (CDLL e name).
Proof.
  intros name. unfold CDLL.
  destruct (ctypes_present e); [ | apply writes_raise].
  destruct (cdll e name); [apply writes_ret | apply writes_raise].
Qed.

Lemma writes_GetTicks : writes_only W (GetTicks e).
Proof.
  unfold GetTicks.
  destruct (macos_ticks e); [apply writes_ret | apply writes_raise].
Qed.

Lemma writes_sysinfo_read : forall libc, writes_only W (sysinfo_read e libc).
Proof.
  intros libc. unfold sysinfo_read.
  destruct (negb (has_sysinfo libc)); [apply writes_ret | ].
  destruct (sysinfo_rc libc <? 0); apply writes_ret.
Qed.

End Frame.

#[local] Hint Resolve writes_ret writes_raise writes_record writes_get
  writes_time writes_minus writes_fromtimestamp writes_open writes_item writes_float
  writes_int writes_CDLL writes_GetTicks writes_sysinfo_read : frame.

(** An exception handler written as a [match]: one case per exception. *)
Ltac handler :=
  let x := fresh "x" in
  let r := fresh "r" in
  let H := fresh "H" in
  intros x r H; destruct x; simpl in H; try discriminate H;
  injection H as <-.

Ltac frame :=
  repeat first
    [ apply writes_bind; [ | intros ? ]
    | apply writes_try; [ | handler | intros ? ]
    | solve [ auto with frame ] ].

Section Writers.

Variable e : env.

Lemma uptime_linux_writes : forall W, writes_only W (_uptime_linux e).
Proof. intros W. unfold _uptime_linux, procfs_read. frame. Qed.

Lemma uptime_mac_writes : forall W, writes_only W (_uptime_mac e).
Proof. intros W. unfold _uptime_mac. frame. Qed.

Lemma uptime_posix_writes : forall W, writes_only W (_uptime_posix e).
Proof. intros W. unfold _uptime_posix. frame. Qed.

Lemma uptime_osx_writes : forall W, writes_only W (_uptime_osx e).
Proof. intros W. unfold _uptime_osx. frame. Qed.

End Writers.

Section DirectWriters.

Variable e : env.

Lemma sysctl_read_writes : forall libc,
  cdll e "libc.so" = Some libc \/ cdll e "libc.dylib" = Some libc ->
  writes_only (kern_instant e) (sysctl_read e libc).
Proof.
  intros libc Hlib. unfold sysctl_read.
  destruct (negb (has_sysctlbyname libc)); [apply writes_ret | ].
  destruct (negb (sysctl_size libc =? Z.of_nat (2 * sizeof_long e)));
    [apply writes_ret | ].
  apply writes_bind.
  - apply writes_set. exists libc. split; [exact Hlib | reflexivity].
  - intros _. apply writes_bind; [apply writes_time | intros now].
    apply writes_bind; [apply writes_get | intros [b | ]].
    + apply writes_bind; [apply writes_minus | intros up]. apply writes_ret.
    + apply writes_raise.
Qed.

Lemma CDLL_found : forall name libc s s1,
  CDLL e name s = (Ok libc, s1) -> cdll e name = Some libc.
Proof.
  intros name libc s s1. unfold CDLL.
  destruct (ctypes_present e); [ | discriminate].
  destruct (cdll e name) as [l | ]; [ | discriminate].
  unfold ret. intros H. injection H as -> _. reflexivity.
Qed.

(** [try_] when what the body returns matters to the continuation. *)
Lemma writes_try_found : forall W A B (P : A -> Prop)
    (m : M A) (h : exn -> option (M B)) (k : A -> M B),
  writes_only W m ->
  (forall s a s1, m s = (Ok a, s1) -> P a) ->
  (forall x r, h x = Some r -> writes_only W r) ->
  (forall a, P a -> writes_only W (k a)) ->
  writes_only W (try_ m h k).
Proof.
  intros W A B P m h k Hm HP Hh Hk s. unfold try_, state_of in *.
  specialize (Hm s). specialize (HP s).
  destruct (m s) as [[a | x] s1]; simpl in *.
  - specialize (Hk a (HP a s1 eq_refl) s1).
    destruct (k a s1) as [r s2]; simpl in *.
    destruct Hk as [Hk | Hk]; [ | right; exact Hk].
    rewrite Hk. exact Hm.
  - destruct (h x) as [r | ] eqn:Hx; simpl; [ | exact Hm].
    specialize (Hh x r Hx s1). destruct (r s1) as [r' s2]; simpl in *.
    destruct Hh as [Hh | Hh]; [ | right; exact Hh].
    rewrite Hh. exact Hm.
Qed.

Lemma uptime_bsd_writes : writes_only (kern_instant e) (_uptime_bsd e).
Proof.
  unfold _uptime_bsd. apply writes_bind; [apply writes_record | intros _].
  apply writes_try_found
    with (P := fun libc => cdll e "libc.so" = Some libc).
  - apply writes_CDLL.
  - intros s a s1. apply CDLL_found.
  - handler.
    + apply writes_try_found
        with (P := fun libc => cdll e "libc.dylib" = Some libc).
      * apply writes_CDLL.
      * intros s a s1. apply CDLL_found.
      * handler. apply writes_ret.
      * intros libc Hlib. apply sysctl_read_writes. right. exact Hlib.
    + apply writes_ret.
  - intros libc Hlib. apply sysctl_read_writes. left. exact Hlib.
Qed.

Lemma scan_btime_writes : forall content ls,
  proc_stat e = Some content ->
  (forall line, In line ls -> In line (Text.lines (Text.read content))) ->
  writes_only (btime_instant e) (scan_btime ls).
Proof.
  intros content ls Hstat. induction ls as [ | line rest IH]; intros Hin.
  - apply writes_ret.
  - cbn [scan_btime]. apply writes_bind.
    + destruct (Text.startswith (Text.of_string "btime") line) eqn:Hpre;
        [ | apply writes_ret].
      intros s. unfold item, int_, bind, ret, raise, set_boottime, state_of.
      destruct (nth_error (Text.split line) 1) as [tok | ] eqn:Htok;
        [ | left; reflexivity].
      destruct (Text.parse_int tok) as [z | ] eqn:Hz; [ | left; reflexivity].
      right. exists content, line, tok, z.
      repeat split; auto. apply Hin. left. reflexivity.
    + intros _. apply IH. intros l Hl. apply Hin. right. exact Hl.
Qed.

Lemma boottime_linux_writes : writes_only (btime_instant e) (_boottime_linux e).
Proof.
  unfold _boottime_linux. apply writes_bind; [apply writes_record | intros _].
  apply writes_try; [ | handler; apply writes_ret | intros d; apply writes_ret].
  destruct (proc_stat e) as [content | ] eqn:Hstat; cbn [open].
  - change (writes_only (btime_instant e)
              (scan_btime (Text.lines (Text.read content));;
               (if datetime_present e then ret tt
                else raise NotImplementedError);;
               b <- get_boottime;; fromtimestamp e b)).
    apply writes_bind; [ | intros _].
    + apply scan_btime_writes with (content := content); auto.
    + apply writes_bind; [ | intros _].
      * destruct (datetime_present e); [apply writes_ret | apply writes_raise].
      * apply writes_bind; [apply writes_get | intros b].
        apply writes_fromtimestamp.
  - exact (writes_raise (btime_instant e) _ IOError).
Qed.

End DirectWriters.

(** ** Where negative results are rejected *)

Section Negative.

Variable e : env.

(** The [sysinfo] path of [_uptime_linux] never returns a negative number. *)
Lemma sysinfo_read_rejects_negative : forall libc s v,
  result_of (sysinfo_read e libc s) = Ok (Some v) -> ltz v = false.
Proof.
  intros libc s v. unfold sysinfo_read, ret, result_of.
  destruct (negb (has_sysinfo libc)); [discriminate | ].
  destruct (sysinfo_rc libc <? 0); [discriminate | ].
  destruct (Struct.signed_at (big_endian e) 0 (sizeof_long e)
              (Struct.buffer_raw 128 (sysinfo_out libc)) <? 0) eqn:Hup;
    [discriminate | ].
  cbn [fst]. intros H. injection H as <-. exact Hup.
Qed.

(** Neither does [_uptime_bsd] once it has the library. *)
Lemma sysctl_read_rejects_negative : forall libc s v,
  result_of (sysctl_read e libc s) = Ok (Some v) -> ltz v = false.
Proof.
  intros libc s v. unfold sysctl_read, result_of.
  destruct (negb (has_sysctlbyname libc)); [discriminate | ].
  destruct (negb (sysctl_size libc =? Z.of_nat (2 * sizeof_long e)));
    [discriminate | ].
  unfold bind, set_boottime, time_time, get_boottime, minus, ret.
  cbn [fst boottime_cache ticks].
  change (convertible (kern_boottime e libc)) with true. cbv beta iota.
  destruct (ltz (sub (PyFloat (FFin (clock e (ticks s))))
                     (kern_boottime e libc))) eqn:Hup;
    [discriminate | ].
  intros H. injection H as <-. exact Hup.
Qed.

End Negative.

(** ** The [or] chain of [uptime()] *)

Section Chain.

Variable e : env.

Lemma or_falsy : forall (a b : M (option num)) s v s1,
  a s = (Ok v, s1) -> truthy v = false -> or_ a b s = b s1.
Proof.
  intros a b s v s1 Ha Hv. unfold or_, bind. rewrite Ha, Hv. reflexivity.
Qed.

Lemma or_truthy : forall (a b : M (option num)) s v s1,
  a s = (Ok v, s1) -> truthy v = true -> or_ a b s = (Ok v, s1).
Proof.
  intros a b s v s1 Ha Hv. unfold or_, bind. rewrite Ha, Hv. reflexivity.
Qed.

Lemma or_chain_cons : forall p q ps,
  or_chain e (p :: q :: ps) = or_ (run e p) (or_chain e (q :: ps)).
Proof. reflexivity. Qed.

Lemma uptime_unset : forall s,
  boottime_cache s = None ->
  uptime e s
  = or_chain e (preferred (platform e) :: [Bsd; Linux; Posix; Mac; Osx]) s.
Proof.
  intros s Hs. unfold uptime, bind, get_boottime. rewrite Hs. reflexivity.
Qed.

(** The chain stops at the first probe with a truthy result. *)
Lemma chain_first_truthy : forall pre s s1,
  falls_through e pre s s1 ->
  forall p post v s2,
    run e p s1 = (Ok v, s2) ->
    truthy v = true ->
    or_chain e (pre ++ p :: post) s = (Ok v, s2).
Proof.
  induction 1 as [s | q ps w s s1 s2 Hq Hw Hps IH]; intros p post v s3 Hp Hv.
  - destruct post as [ | p' post]; [exact Hp | ].
    rewrite app_nil_l, or_chain_cons. apply or_truthy with (v := v); assumption.
  - specialize (IH p post v s3 Hp Hv).
    change ((q :: ps) ++ p :: post) with (q :: (ps ++ p :: post)).
    destruct (ps ++ p :: post) as [ | p' rest] eqn:Hrest.
    + destruct ps; discriminate Hrest.
    + rewrite or_chain_cons. rewrite or_falsy with (v := w) (s1 := s1); assumption.
Qed.

(** A falsy result before the end hands over to the probes that follow. *)
Lemma chain_falls_through : forall pre s s1,
  falls_through e pre s s1 ->
  forall p post,
    or_chain e (pre ++ p :: post) s = or_chain e (p :: post) s1.
Proof.
  induction 1 as [s | q ps w s s1 s2 Hq Hw Hps IH]; intros p post.
  - reflexivity.
  - change ((q :: ps) ++ p :: post) with (q :: (ps ++ p :: post)).
    destruct (ps ++ p :: post) as [ | p' rest] eqn:Hrest.
    + destruct ps; discriminate Hrest.
    + rewrite or_chain_cons. rewrite or_falsy with (v := w) (s1 := s1) by assumption.
      rewrite <- Hrest. apply IH.
Qed.

Lemma falls_through_snoc : forall pre s s1 p v s2,
  falls_through e pre s s1 ->
  run e p s1 = (Ok v, s2) ->
  truthy v = false ->
  falls_through e (pre ++ [p]) s s2.
Proof.
  induction 1 as [s | q ps w s s1 s3 Hq Hw Hps IH]; intros Hp Hv.
  - apply falls_cons with (v := v) (s1 := s2); [assumption .. | apply falls_nil].
  - simpl. apply falls_cons with (v := w) (s1 := s1); auto.
Qed.

End Chain.

Lemma every_probe_falls_through : forall e,
  every_probe_falsy e ->
  forall ps s, exists s', falls_through e ps s s'.
Proof.
  intros e He ps. induction ps as [ | p ps IH]; intros s.
  - exists s. apply falls_nil.
  - destruct (He p s) as (v & s1 & Hp & Hv).
    destruct (IH s1) as (s2 & Hps).
    exists s2. apply falls_cons with (v := v) (s1 := s1); assumption.
Qed.

(** ** The dispatcher *)

Section Dispatcher.
Import Scenario.
Local Open Scope string_scope.




(** The table sends the three Linux names to the Linux probe, [mac] to the
    Mac probe and every other name to the BSD probe; with [__boottime]
    unset, [uptime()] runs the preferred probe and then BSD, Linux, POSIX,
    Mac, OSX in that order, and returns the first result that is truthy:
    when the probes before it each returned [None] or zero without
    raising, that result is the answer and the state is the one that probe
    left. *)
Lemma uptime_fallback_order :
  (forall name,
     In name ["linux"; "linux-armv71"; "linux2"] -> preferred name = Linux)
  /\ preferred "mac" = Mac
  /\ (forall name,
        ~ In name ["linux"; "linux-armv71"; "linux2"; "mac"] ->
        preferred name = Bsd)
  /\ (forall e s pre p post v s1 s2,
        boottime_cache s = None ->
        preferred (platform e) :: [Bsd; Linux; Posix; Mac; Osx]
        = (pre ++ p :: post)%list ->
        falls_through e pre s s1 ->
        run e p s1 = (Ok v, s2) ->
        truthy v = true ->
        uptime e s = (Ok v, s2)).
Proof.
  split; [ | split; [ | split]].
  - intros name [<- | [<- | [<- | []]]]; reflexivity.
  - reflexivity.
  - intros name Hname. unfold preferred.
    destruct (String.eqb_spec name "linux") as [-> | _];
      [exfalso; apply Hname; simpl; auto | ].
    destruct (String.eqb_spec name "linux-armv71") as [-> | _];
      [exfalso; apply Hname; simpl; auto | ].
    destruct (String.eqb_spec name "linux2") as [-> | _];
      [exfalso; apply Hname; simpl; auto | ].
    destruct (String.eqb_spec name "mac") as [-> | _];
      [exfalso; apply Hname; simpl; auto | ].
    reflexivity.
  - intros e s pre p post v s1 s2 Hs Hsplit Hpre Hp Hv.
    rewrite uptime_unset by exact Hs. rewrite Hsplit.
    apply chain_first_truthy with (s1 := s1); assumption.
Qed.

(** On an unknown platform with only [/proc/uptime] to read, the BSD probe
    fails twice and the Linux probe answers. *)
Lemma uptime_fallback_order_witness :
  uptime (with_procfs (Some ("12345.67 7890.12" ++ nl)) None bare) fresh
  = (Ok (Some (PyFloat (FFin (1234567 # 100)))),
     {| boottime_cache := None; ticks := 0;
        calls := [Call_uptime_bsd; Call_uptime_bsd; Call_uptime_linux] |}).
Proof.
  apply (proj2 (proj2 (proj2 uptime_fallback_order)))
    with (pre := [Bsd; Bsd]) (p := Linux) (post := [Posix; Mac; Osx])
         (s1 := {| boottime_cache := None; ticks := 0;
                   calls := [Call_uptime_bsd; Call_uptime_bsd] |}).
  - reflexivity.
  - reflexivity.
  - apply falls_cons
      with (v := None)
           (s1 := {| boottime_cache := None; ticks := 0;
                     calls := [Call_uptime_bsd] |});
      [reflexivity | reflexivity | ].
    apply falls_cons
      with (v := None)
           (s1 := {| boottime_cache := None; ticks := 0;
                     calls := [Call_uptime_bsd; Call_uptime_bsd] |});
      [reflexivity | reflexivity | ].
    apply falls_nil.
  - reflexivity.
  - reflexivity.
Defined.

(** C3 fails on [zero_box]: the preferred probe (BSD, the platform being
    unknown) returns [None]; the Linux probe, later in the chain, succeeds
    and returns the uptime it read, zero; [uptime()] discards it, because
    the chain is written with [or], and answers [None]. *)
Theorem uptime_drops_zero_uptime :
  preferred (platform zero_box) = Bsd
  /\ result_of (run zero_box Bsd fresh) = Ok None
  /\ (forall s,
        result_of (_uptime_linux zero_box s) = Ok (Some (PyFloat (FFin 0))))
  /\ uptime zero_box fresh
     = (Ok None,
        {| boottime_cache := None; ticks := 0;
           calls := [Call_uptime_bsd; Call_uptime_bsd; Call_uptime_linux;
                     Call_uptime_posix; Call_uptime_mac; Call_uptime_osx] |}).
Proof.
  split; [reflexivity | ]. split; [reflexivity | ].
  split; [intros s; reflexivity | reflexivity].
Qed.

End Dispatcher.

Section ZeroAndNone.
Import Scenario.
Local Open Scope string_scope.

(** A zero before the end of the chain hands over to the probes that
    follow; a zero from the last probe is the answer. *)
Lemma uptime_zero_continues : forall e s pre p post z s1 s2,
  boottime_cache s = None ->
  preferred (platform e) :: [Bsd; Linux; Posix; Mac; Osx]
  = (pre ++ p :: post)%list ->
  falls_through e pre s s1 ->
  run e p s1 = (Ok (Some z), s2) ->
  num_truthy z = false ->
  uptime e s
  = match post with
    | [] => (Ok (Some z), s2)
    | _ :: _ => or_chain e post s2
    end.
Proof.
  intros e s pre p post z s1 s2 Hs Hsplit Hpre Hp Hz.
  rewrite uptime_unset by exact Hs. rewrite Hsplit.
  rewrite chain_falls_through with (s1 := s1) by exact Hpre.
  destruct post as [ | q post]; [exact Hp | ].
  rewrite or_chain_cons. apply or_falsy with (v := Some z); assumption.
Qed.

(** When no probe has a truthy answer, the answer of the last one is
    returned. *)
Lemma uptime_all_falsy : forall e s,
  boottime_cache s = None ->
  every_probe_falsy e ->
  result_of (uptime e s) = Ok (uptime_osx e)
  /\ truthy (uptime_osx e) = false.
Proof.
  intros e s Hs Hall.
  destruct (every_probe_falls_through e Hall
              [preferred (platform e); Bsd; Linux; Posix; Mac] s)
    as (s1 & Hfive).
  rewrite uptime_unset by exact Hs.
  change (preferred (platform e) :: [Bsd; Linux; Posix; Mac; Osx])
    with ([preferred (platform e); Bsd; Linux; Posix; Mac] ++ [Osx])%list.
  rewrite chain_falls_through with (s1 := s1) by exact Hfive.
  destruct (Hall Osx s1) as (v & s2 & Hosx & Hv).
  split; [reflexivity | ].
  unfold run, _uptime_osx, bind, record, ret in Hosx.
  injection Hosx as <- _. exact Hv.
Qed.

(** C9, amended.  With [__boottime] unset, a probe that returns an uptime of
    zero counts as failed as long as other probes follow it: [uptime()] goes
    on with those.  Zero from the last probe (the OS X variant) is returned as
    it is.  So when every probe yields zero or [None], [uptime()] returns what
    the last probe returned: [None], or zero. *)
Theorem zero_uptime_falls_through : forall e s,
  boottime_cache s = None ->
  (forall pre p post z s1 s2,
     preferred (platform e) :: [Bsd; Linux; Posix; Mac; Osx]
     = (pre ++ p :: post)%list ->
     falls_through e pre s s1 ->
     run e p s1 = (Ok (Some z), s2) ->
     num_truthy z = false ->
     uptime e s
     = match post with
       | [] => (Ok (Some z), s2)
       | _ :: _ => or_chain e post s2
       end)
  /\ (every_probe_falsy e ->
      result_of (uptime e s) = Ok (uptime_osx e)
      /\ truthy (uptime_osx e) = false).
Proof.
  intros e s Hs. split.
  - intros pre p post z s1 s2 Hsplit Hpre Hp Hz.
    apply uptime_zero_continues with (pre := pre) (p := p) (s1 := s1);
      assumption.
  - apply uptime_all_falsy. exact Hs.
Qed.

(** With only the OS X variant answering, and answering zero, [uptime()]
    returns that zero. *)
Lemma zero_uptime_falls_through_witness :
  result_of (uptime (with_posix None (Some (PyFloat (FFin 0))) bare) fresh)
  = Ok (Some (PyFloat (FFin 0))).
Proof.
  apply (proj2 (zero_uptime_falls_through
                  (with_posix None (Some (PyFloat (FFin 0))) bare) fresh
                  eq_refl)).
  intros p s. destruct p; eexists; eexists; split; reflexivity.
Defined.

(** C9 as stated fails: every probe yields zero or [None], yet [uptime()]
    does not return [None]. *)
Lemma last_probe_zero_is_returned :
  ~ (forall e s,
       boottime_cache s = None ->
       every_probe_falsy e ->
       result_of (uptime e s) = Ok None).
Proof.
  intros H.
  specialize (H (with_posix None (Some (PyFloat (FFin 0))) bare) fresh eq_refl).
  assert (Hall : every_probe_falsy
                   (with_posix None (Some (PyFloat (FFin 0))) bare)).
  { intros p s. destruct p; eexists; eexists; split; reflexivity. }
  specialize (H Hall). discriminate H.
Qed.

(** C7.  With [__boottime] unset and every probe returning [None] whenever
    it is called, [uptime()] returns [None] and so does [boottime()];
    neither raises. *)
Theorem exhausted_probes_give_none : forall e s,
  boottime_cache s = None ->
  (forall p s', result_of (run e p s') = Ok None) ->
  result_of (uptime e s) = Ok None
  /\ result_of (boottime e s) = Ok None.
Proof.
  intros e s Hs Hnone.
  assert (Hall : every_probe_falsy e).
  { intros p s'. specialize (Hnone p s').
    destruct (run e p s') as [r s'']. simpl in Hnone. subst r.
    exists None, s''. split; reflexivity. }
  assert (Hup : result_of (uptime e s) = Ok None).
  { destruct (uptime_all_falsy e s Hs Hall) as [Hres _]. rewrite Hres.
    specialize (Hnone Osx s). simpl in Hnone. exact Hnone. }
  split; [exact Hup | ].
  unfold boottime, bind, get_boottime. rewrite Hs.
  destruct (uptime e s) as [r s1]. simpl in Hup. subst r. reflexivity.
Qed.

Lemma exhausted_probes_give_none_witness :
  result_of (uptime bare fresh) = Ok None
  /\ result_of (boottime bare fresh) = Ok None.
Proof.
  apply (exhausted_probes_give_none bare fresh).
  - reflexivity.
  - intros p s'. destruct p; reflexivity.
Defined.

End ZeroAndNone.

(** ** The cache *)

Section Cache.
Import Scenario.
Local Open Scope string_scope.

Lemma writes_weaken : forall A (W W' : option num -> Prop) (m : M A),
  (forall c, W c -> W' c) -> writes_only W m -> writes_only W' m.
Proof.
  intros A W W' m HW Hm s. destruct (Hm s) as [H | H]; [left | right]; auto.
Qed.

Lemma writes_nothing : forall A (m : M A),
  writes_only (fun _ => False) m -> keeps_boottime m.
Proof. intros A m Hm s. destruct (Hm s) as [H | []]. exact H. Qed.

Lemma run_writes : forall e p, writes_only (kern_instant e) (run e p).
Proof.
  intros e [ | | | | ]; simpl.
  - apply uptime_linux_writes.
  - apply uptime_bsd_writes.
  - apply uptime_mac_writes.
  - apply uptime_posix_writes.
  - apply uptime_osx_writes.
Qed.

Lemma or_writes : forall W (a b : M (option num)),
  writes_only W a -> writes_only W b -> writes_only W (or_ a b).
Proof.
  intros W a b Ha Hb. unfold or_. apply writes_bind; [exact Ha | intros x].
  destruct (truthy x); [apply writes_ret | exact Hb].
Qed.

Lemma uptime_writes : forall e, writes_only (kern_instant e) (uptime e).
Proof.
  intros e. unfold uptime. apply writes_bind; [apply writes_get | intros b].
  destruct b as [b | ].
  - apply writes_bind; [apply writes_time | intros now].
    apply writes_bind; [apply writes_minus | intros up]. apply writes_ret.
  - repeat apply or_writes;
      first [ apply run_writes
            | apply uptime_linux_writes | apply uptime_bsd_writes
            | apply uptime_mac_writes | apply uptime_posix_writes
            | apply uptime_osx_writes ].
Qed.

Lemma boottime_rest_writes : forall e up,
  writes_only (btime_instant e) (boottime_rest e up).
Proof.
  intros e up. unfold boottime_rest.
  apply writes_bind; [apply writes_get | intros b].
  apply writes_bind; [ | intros _].
  { destruct b.
    - apply writes_ret.
    - apply writes_bind; [apply boottime_linux_writes | intros _].
      apply writes_ret. }
  apply writes_bind; [ | intros _].
  { destruct (datetime_present e); [apply writes_ret | apply writes_raise]. }
  apply writes_bind; [apply writes_get | intros b'].
  apply writes_bind; [ | intros v].
  { destruct (truthy b'); [apply writes_ret | ].
    apply writes_bind; [apply writes_time | intros now].
    destruct up; [ | apply writes_raise].
    apply writes_bind; [apply writes_minus | intros w]. apply writes_ret. }
  apply writes_bind; [apply writes_fromtimestamp | intros d]. apply writes_ret.
Qed.

Lemma boottime_writes : forall e,
  writes_only (fun c => kern_instant e c \/ btime_instant e c) (boottime e).
Proof.
  intros e. unfold boottime. apply writes_bind; [apply writes_get | intros b].
  destruct b as [b | ].
  - apply writes_weaken with (W := btime_instant e); [auto | ].
    apply boottime_rest_writes.
  - apply writes_bind.
    + apply writes_weaken with (W := kern_instant e); [auto | ].
      apply uptime_writes.
    + intros [up | ]; [ | apply writes_ret].
      apply writes_weaken with (W := btime_instant e); [auto | ].
      apply boottime_rest_writes.
Qed.

Lemma bind_get : forall A (k : option num -> M A) s,
  bind get_boottime k s = k (boottime_cache s) s.
Proof. reflexivity. Qed.

Lemma boottime_rest_set : forall e up b s,
  boottime_cache s = Some b ->
  boottime_cache (state_of (boottime_rest e up s)) = Some b.
Proof.
  intros e up b s Hs. unfold boottime_rest. rewrite bind_get, Hs.
  rewrite <- Hs. apply writes_nothing.
  apply writes_bind; [apply writes_ret | intros _].
  apply writes_bind; [ | intros _].
  { destruct (datetime_present e); [apply writes_ret | apply writes_raise]. }
  apply writes_bind; [apply writes_get | intros b'].
  apply writes_bind; [ | intros v].
  { destruct (truthy b'); [apply writes_ret | ].
    apply writes_bind; [apply writes_time | intros now].
    destruct up; [ | apply writes_raise].
    apply writes_bind; [apply writes_minus | intros w]. apply writes_ret. }
  apply writes_bind; [apply writes_fromtimestamp | intros d]. apply writes_ret.
Qed.

Lemma boottime_cached_keeps : forall e b s,
  boottime_cache (state_of (boottime e (cached b s))) = Some b.
Proof.
  intros e b s. unfold boottime. rewrite bind_get.
  apply boottime_rest_set. reflexivity.
Qed.

Lemma uptime_cached_keeps : forall e b s,
  boottime_cache (state_of (uptime e (cached b s))) = Some b.
Proof.
  intros e b s. unfold uptime, bind, get_boottime, time_time, minus.
  cbn [cached boottime_cache ticks calls].
  destruct (convertible b); reflexivity.
Qed.




End Cache.

(** ** [boottime()] *)

Section Boottime.
Import Scenario.
Local Open Scope string_scope.

(** C10.  When [__boottime] holds zero, [boottime()] raises: with [datetime]
    available the error is the unbound local [up], read after
    [time.time()] was called; without it the [RuntimeError] comes first.
    [__boottime] is left as it was. *)
Theorem boottime_zero_cache_raises : forall e b s,
  num_truthy b = false ->
  boottime e (cached b s)
  = if datetime_present e
    then (Raise UnboundLocalError,
          {| boottime_cache := Some b;
             ticks := S (ticks s);
             calls := calls s ++ [Call_time] |})
    else (Raise RuntimeError, cached b s).
Proof.
  intros e b s Hb. unfold boottime, boottime_rest, cached.
  unfold bind, get_boottime, ret, raise, time_time.
  destruct (datetime_present e) eqn:Hdt;
    destruct b as [z | [ | negative | q]];
    simpl in *; try discriminate Hb; rewrite ?Hdt, ?Hb; reflexivity.
Qed.

Lemma boottime_zero_cache_raises_witness :
  boottime bare (cached (PyInt 0) fresh)
  = (Raise UnboundLocalError,
     {| boottime_cache := Some (PyInt 0); ticks := 1; calls := [Call_time] |}).
Proof. apply (boottime_zero_cache_raises bare (PyInt 0) fresh). reflexivity. Defined.

(** C6 fails on [epoch_box]: the first [boottime()] stores the instant 0 read
    from [/proc/stat]; the second one raises instead of returning it. *)
Theorem boottime_epoch_second_call_raises :
  result_of (boottime epoch_box fresh) = Ok (Some (PyFloat (FFin 995)))
  /\ boottime_cache (state_of (boottime epoch_box fresh)) = Some (PyInt 0)
  /\ result_of (boottime epoch_box (state_of (boottime epoch_box fresh)))
     = Raise UnboundLocalError.
Proof. vm_compute. repeat split; reflexivity. Qed.




End Boottime.

(** ** The procfs probe *)

Section Procfs.
Import Scenario.
Local Open Scope string_scope.

(** C1 fails on [negative_box]: the procfs read returns the negative number
    it parsed, and [uptime()] returns it. *)
Theorem procfs_probe_returns_negative :
  result_of (_uptime_linux negative_box fresh)
  = Ok (Some (PyFloat (FFin (-5 # 1))))
  /\ result_of (uptime negative_box fresh) = Ok (Some (PyFloat (FFin (-5 # 1))))
  /\ ltz (PyFloat (FFin (-5 # 1))) = true.
Proof. vm_compute. repeat split; reflexivity. Qed.

(** C2 fails when [/proc/uptime] is empty or its first line is blank:
    [split()] returns no token and the [IndexError] of [[0]] leaves
    [_uptime_linux], whatever else the machine offers. *)
Theorem procfs_probe_raises_on_empty : forall e st s,
  result_of (_uptime_linux (with_procfs (Some "") st e) s) = Raise IndexError
  /\ result_of (_uptime_linux (with_procfs (Some (" " ++ nl)) st e) s)
     = Raise IndexError
  /\ result_of (uptime (with_platform "linux" (with_procfs (Some "") st e))
                  
                  {| boottime_cache := None; ticks := ticks s;
                     calls := calls s |})
     = Raise IndexError.
Proof. intros e st s. repeat split; reflexivity. Qed.

End Procfs.

(** ** The probes, outcome by outcome *)

Section Steps.

Lemma bind_record : forall A c (k : unit -> M A) s,
  bind (record c) k s = k tt (logged c s).
Proof. reflexivity. Qed.

Lemma try_ok : forall A B (m : M A) h (k : A -> M B) s a s1,
  m s = (Ok a, s1) -> try_ m h k s = k a s1.
Proof. intros A B m h k s a s1 H. unfold try_. rewrite H. reflexivity. Qed.

Lemma try_caught : forall A B (m : M A) h (k : A -> M B) s x s1 r,
  m s = (Raise x, s1) -> h x = Some r -> try_ m h k s = r s1.
Proof.
  intros A B m h k s x s1 r H Hx. unfold try_. rewrite H, Hx. reflexivity.
Qed.

Lemma try_uncaught : forall A B (m : M A) h (k : A -> M B) s x s1,
  m s = (Raise x, s1) -> h x = None -> try_ m h k s = (Raise x, s1).
Proof.
  intros A B m h k s x s1 H Hx. unfold try_. rewrite H, Hx. reflexivity.
Qed.

End Steps.

Section LinuxProbe.

Variable e : env.

(** The procfs read, case by case. *)
Lemma procfs_read_cases : forall s,
  procfs_read e s
  = match proc_uptime e with
    | None => (Raise IOError, s)
    | Some content =>
        match Text.split (Text.readline (Text.read content)) with
        | [] => (Raise IndexError, s)
        | tok :: _ =>
            match Text.parse_float tok with
            | Some x => (Ok (Some (PyFloat x)), s)
            | None => (Raise ValueError, s)
            end
        end
    end.
Proof.
  intros s. unfold procfs_read, open, item, float_, bind, ret, raise.
  destruct (proc_uptime e) as [content | ]; [ | reflexivity].
  destruct (Text.split (Text.readline (Text.read content)))
    as [ | tok toks]; [reflexivity | ].
  cbn [nth_error]. destruct (Text.parse_float tok); reflexivity.
Qed.

(** Once the library is loaded the [sysinfo] path changes nothing and
    returns [None] or an integer that is not negative. *)
Lemma sysinfo_read_outcome : forall libc s,
  exists v,
    sysinfo_read e libc s = (Ok v, s)
    /\ (v = None
        \/ v = Some (PyInt (Struct.signed_at (big_endian e) 0 (sizeof_long e)
                              (Struct.buffer_raw 128 (sysinfo_out libc))))
           /\ ltz (PyInt (Struct.signed_at (big_endian e) 0 (sizeof_long e)
                            (Struct.buffer_raw 128 (sysinfo_out libc)))) = false
           /\ has_sysinfo libc = true).
Proof.
  intros libc s. unfold sysinfo_read, ret.
  destruct (has_sysinfo libc); cbn [negb]; [ | exists None; auto].
  destruct (sysinfo_rc libc <? 0); [exists None; auto | ].
  cbn [ltz].
  destruct (Struct.signed_at (big_endian e) 0 (sizeof_long e)
              (Struct.buffer_raw 128 (sysinfo_out libc)) <? 0) eqn:Hup.
  - exists None. auto.
  - eexists. split; [reflexivity | ]. right. auto.
Qed.

(** What [sysinfo] reported through [libc], as [_uptime_linux] reads it. *)
Lemma libc_sysinfo_outcome : forall s,
  exists v,
    try_ (CDLL e "libc.so")
      (fun x =>
         match x with
         | AttributeError => Some (ret None)
         | OSError =>
             Some
               (try_ (CDLL e "libc.so.6")
                  (fun x =>
                     match x with
                     | OSError => Some (ret None)
                     | _ => None
                     end)
                  (sysinfo_read e))
         | _ => None
         end)
      (sysinfo_read e) s
    = (Ok v, s)
    /\ (v = None
        \/ exists libc,
             (cdll e "libc.so" = Some libc
              \/ cdll e "libc.so" = None /\ cdll e "libc.so.6" = Some libc)
             /\ ctypes_present e = true
             /\ has_sysinfo libc = true
             /\ v = Some (PyInt (Struct.signed_at (big_endian e) 0
                                   (sizeof_long e)
                                   (Struct.buffer_raw 128 (sysinfo_out libc))))
             /\ not_negative v).
Proof.
  intros s. unfold try_, CDLL, ret, raise.
  destruct (ctypes_present e); [ | exists None; auto].
  destruct (cdll e "libc.so") as [libc | ] eqn:Hso.
  - destruct (sysinfo_read_outcome libc s) as [v [Hv [-> | [-> [Hn Hh]]]]];
      eexists; (split; [exact Hv | ]); [left; reflexivity | right].
    exists libc. auto 6.
  - destruct (cdll e "libc.so.6") as [libc | ] eqn:Hso6.
    + destruct (sysinfo_read_outcome libc s) as [v [Hv [-> | [-> [Hn Hh]]]]];
        eexists; (split; [exact Hv | ]); [left; reflexivity | right].
      exists libc. auto 7.
    + exists None. auto.
Qed.

(** The [sysinfo] answer does not depend on the state. *)
Lemma libc_sysinfo_same : forall s s' v v',
  try_ (CDLL e "libc.so")
    (fun x =>
       match x with
       | AttributeError => Some (ret None)
       | OSError =>
           Some
             (try_ (CDLL e "libc.so.6")
                (fun x =>
                   match x with
                   | OSError => Some (ret None)
                   | _ => None
                   end)
                (sysinfo_read e))
       | _ => None
       end)
    (sysinfo_read e) s
  = (Ok v, s) ->
  try_ (CDLL e "libc.so")
    (fun x =>
       match x with
       | AttributeError => Some (ret None)
       | OSError =>
           Some
             (try_ (CDLL e "libc.so.6")
                (fun x =>
                   match x with
                   | OSError => Some (ret None)
                   | _ => None
                   end)
                (sysinfo_read e))
       | _ => None
       end)
    (sysinfo_read e) s'
  = (Ok v', s') ->
  v = v'.
Proof.
  intros s s' v v'. unfold try_, CDLL, sysinfo_read, ret, raise.
  destruct (ctypes_present e); [ | congruence].
  destruct (cdll e "libc.so") as [libc | ].
  - destruct (negb (has_sysinfo libc)); [congruence | ].
    destruct (sysinfo_rc libc <? 0); congruence.
  - destruct (cdll e "libc.so.6") as [libc | ]; [ | congruence].
    destruct (negb (has_sysinfo libc)); [congruence | ].
    destruct (sysinfo_rc libc <? 0); congruence.
Qed.

(** The three ways out of [_uptime_linux]. *)
Lemma uptime_linux_blank : forall s,
  blank_uptime e ->
  _uptime_linux e s = (Raise IndexError, logged Call_uptime_linux s).
Proof.
  intros s [content [Hc Hb]]. unfold _uptime_linux. rewrite bind_record.
  apply try_uncaught; [ | reflexivity].
  rewrite procfs_read_cases, Hc, Hb. reflexivity.
Qed.

Lemma uptime_linux_parsed : forall s tok x,
  uptime_token e = Some tok ->
  Text.parse_float tok = Some x ->
  _uptime_linux e s = (Ok (Some (PyFloat x)), logged Call_uptime_linux s).
Proof.
  intros s tok x Ht Hx. unfold _uptime_linux. rewrite bind_record.
  erewrite try_ok; [reflexivity | ].
  rewrite procfs_read_cases. unfold uptime_token in Ht.
  destruct (proc_uptime e) as [content | ]; [ | discriminate Ht].
  destruct (Text.split (Text.readline (Text.read content)))
    as [ | tok' toks]; [discriminate Ht | ].
  injection Ht as ->. rewrite Hx. reflexivity.
Qed.

Lemma uptime_linux_fallback : forall s,
  proc_uptime e = None
  \/ (exists tok, uptime_token e = Some tok /\ Text.parse_float tok = None) ->
  _uptime_linux e s
  = try_ (CDLL e "libc.so")
      (fun x =>
         match x with
         | AttributeError => Some (ret None)
         | OSError =>
             Some
               (try_ (CDLL e "libc.so.6")
                  (fun x =>
                     match x with
                     | OSError => Some (ret None)
                     | _ => None
                     end)
                  (sysinfo_read e))
         | _ => None
         end)
      (sysinfo_read e) (logged Call_uptime_linux s).
Proof.
  intros s H. unfold _uptime_linux. rewrite bind_record.
  destruct H as [Hn | [tok [Ht Hx]]].
  - eapply try_caught with (x := IOError); [ | reflexivity].
    rewrite procfs_read_cases, Hn. reflexivity.
  - eapply try_caught with (x := ValueError); [ | reflexivity].
    rewrite procfs_read_cases. unfold uptime_token in Ht.
    destruct (proc_uptime e) as [content | ]; [ | discriminate Ht].
    destruct (Text.split (Text.readline (Text.read content)))
      as [ | tok' toks]; [discriminate Ht | ].
    injection Ht as ->. rewrite Hx. reflexivity.
Qed.

(** What [/proc/uptime] offers: nothing to open, a blank first line, or a
    first token that is a float or is not. *)
Lemma uptime_file_cases :
  proc_uptime e = None
  \/ blank_uptime e
  \/ exists tok,
       uptime_token e = Some tok
       /\ (Text.parse_float tok = None \/ exists x, Text.parse_float tok = Some x).
Proof.
  unfold blank_uptime, uptime_token.
  destruct (proc_uptime e) as [content | ]; [ | left; reflexivity].
  right.
  destruct (Text.split (Text.readline (Text.read content)))
    as [ | tok toks] eqn:Hs.
  - left. exists content. auto.
  - right. exists tok. split; [reflexivity | ].
    destruct (Text.parse_float tok) as [x | ]; eauto.
Qed.

(** Whatever happens, the Linux probe only adds its call to the log. *)
Lemma uptime_linux_state : forall s,
  state_of (_uptime_linux e s) = logged Call_uptime_linux s.
Proof.
  intros s.
  destruct uptime_file_cases as [Hn | [Hb | [tok [Ht [Hx | [x Hx]]]]]].
  - rewrite uptime_linux_fallback by auto.
    destruct (libc_sysinfo_outcome (logged Call_uptime_linux s)) as [v [-> _]].
    reflexivity.
  - rewrite uptime_linux_blank by exact Hb. reflexivity.
  - rewrite uptime_linux_fallback by eauto.
    destruct (libc_sysinfo_outcome (logged Call_uptime_linux s)) as [v [-> _]].
    reflexivity.
  - rewrite (uptime_linux_parsed _ tok x) by assumption. reflexivity.
Qed.

(** The probe raises only on a blank first line. *)
Lemma uptime_linux_raise_blank : forall s x,
  result_of (_uptime_linux e s) = Raise x -> x = IndexError /\ blank_uptime e.
Proof.
  intros s x H.
  destruct uptime_file_cases as [Hn | [Hb | [tok [Ht [Hx | [y Hx]]]]]].
  - rewrite uptime_linux_fallback in H by auto.
    destruct (libc_sysinfo_outcome (logged Call_uptime_linux s))
      as [v [Hv _]].
    rewrite Hv in H. discriminate H.
  - rewrite uptime_linux_blank in H by exact Hb.
    injection H as <-. auto.
  - rewrite uptime_linux_fallback in H by eauto.
    destruct (libc_sysinfo_outcome (logged Call_uptime_linux s))
      as [v [Hv _]].
    rewrite Hv in H. discriminate H.
  - rewrite (uptime_linux_parsed _ tok y) in H by assumption.
    discriminate H.
Qed.

(** With a first line that is not blank and cannot yield a negative float,
    the probe answers [None] or a number that is not negative. *)
Lemma uptime_linux_ok : forall s,
  ~ blank_uptime e ->
  (forall tok x,
     uptime_token e = Some tok -> Text.parse_float tok = Some x ->
     fltz x = false) ->
  exists v,
    _uptime_linux e s = (Ok v, logged Call_uptime_linux s) /\ not_negative v.
Proof.
  intros s Hnb Hpos.
  assert (Hlibc : exists v,
            try_ (CDLL e "libc.so")
              (fun x =>
                 match x with
                 | AttributeError => Some (ret None)
                 | OSError =>
                     Some
                       (try_ (CDLL e "libc.so.6")
                          (fun x =>
                             match x with
                             | OSError => Some (ret None)
                             | _ => None
                             end)
                          (sysinfo_read e))
                 | _ => None
                 end)
              (sysinfo_read e) (logged Call_uptime_linux s)
            = (Ok v, logged Call_uptime_linux s)
            /\ not_negative v).
  { destruct (libc_sysinfo_outcome (logged Call_uptime_linux s))
      as [v [Hv Hor]].
    exists v. split; [exact Hv | ].
    destruct Hor as [-> | [libc [_ [_ [_ [_ Hn]]]]]]; [exact I | exact Hn]. }
  destruct uptime_file_cases as [Hn | [Hb | [tok [Ht [Hx | [y Hx]]]]]].
  - rewrite uptime_linux_fallback by auto. exact Hlibc.
  - elim (Hnb Hb).
  - rewrite uptime_linux_fallback by eauto. exact Hlibc.
  - rewrite (uptime_linux_parsed _ tok y) by assumption.
    eexists. split; [reflexivity | ]. exact (Hpos tok y Ht Hx).
Qed.

(** X1.  [_uptime_linux] raises exactly when [/proc/uptime] opens and its
    first line holds no token; the exception is then the [IndexError] of
    [split()[0]], which no handler of the probe catches. *)
Theorem uptime_linux_raises_iff_blank : forall s x,
  result_of (_uptime_linux e s) = Raise x
  <-> x = IndexError /\ blank_uptime e.
Proof.
  intros s x. split.
  - apply uptime_linux_raise_blank.
  - intros [-> Hb]. rewrite uptime_linux_blank by exact Hb. reflexivity.
Qed.

End LinuxProbe.

(** X2.  A first token that [float()] rejects is handled like a file that
    cannot be opened: the probe answers what it would answer without
    [/proc/uptime]. *)
Theorem uptime_linux_unparsable_as_absent : forall e s tok,
  uptime_token e = Some tok ->
  Text.parse_float tok = None ->
  _uptime_linux e s = _uptime_linux (Scenario.with_procfs None (proc_stat e) e) s.
Proof.
  intros e s tok Ht Hx.
  rewrite uptime_linux_fallback by eauto.
  rewrite (uptime_linux_fallback (Scenario.with_procfs None (proc_stat e) e))
    by (left; reflexivity).
  reflexivity.
Qed.


Section LinuxAnswers.
Import Scenario.
Local Open Scope string_scope.

(** X3.  When the first token of [/proc/uptime] is a float, the probe
    returns what [float()] made of it, negative, infinite or NaN included,
    and only adds its call to the log.  The answer owes nothing to
    [ctypes] or to a C library: it is the same on every machine whose
    [/proc/uptime] has this content. *)
Theorem uptime_linux_procfs_answer : forall e s content tok rest x,
  proc_uptime e = Some content ->
  Text.split (Text.readline (Text.read content)) = tok :: rest ->
  Text.parse_float tok = Some x ->
  _uptime_linux e s = (Ok (Some (PyFloat x)), logged Call_uptime_linux s)
  /\ (forall e',
        proc_uptime e' = Some content ->
        _uptime_linux e' s = _uptime_linux e s).
Proof.
  intros e s content tok rest x Hc Ht Hx.
  assert (Hall : forall e0,
            proc_uptime e0 = Some content ->
            _uptime_linux e0 s
            = (Ok (Some (PyFloat x)), logged Call_uptime_linux s)).
  { intros e0 Hc0. unfold _uptime_linux. rewrite bind_record.
    erewrite try_ok; [reflexivity | ].
    rewrite procfs_read_cases, Hc0, Ht, Hx. reflexivity. }
  split; [exact (Hall e Hc) | ].
  intros e' Hc'. rewrite (Hall e Hc). exact (Hall e' Hc').
Qed.

(** A [/proc/uptime] that reads [1e400], beyond the range of a float,
    makes the probe answer infinity, with or without a C library. *)
Lemma uptime_linux_procfs_answer_witness :
  _uptime_linux (with_procfs (Some "1e400 0.0") None bare) fresh
  = (Ok (Some (PyFloat (FInf false))), logged Call_uptime_linux fresh)
  /\ (forall e',
        proc_uptime e' = Some "1e400 0.0" ->
        _uptime_linux e' fresh
        = _uptime_linux (with_procfs (Some "1e400 0.0") None bare) fresh).
Proof.
  apply (uptime_linux_procfs_answer
           (with_procfs (Some "1e400 0.0") None bare)
           fresh "1e400 0.0" (Text.of_string "1e400") [Text.of_string "0.0"]
           (FInf false)); vm_compute; reflexivity.
Defined.

(** On the machine of the scenarios with [/proc/uptime] holding a word. *)
Lemma uptime_linux_unparsable_as_absent_witness :
  _uptime_linux (with_procfs (Some "soon") None bare)
    fresh
  = _uptime_linux
      (with_procfs None None
         (with_procfs (Some "soon") None bare))
      fresh.
Proof.
  apply (uptime_linux_unparsable_as_absent
           (with_procfs (Some "soon") None bare)
           fresh (Text.of_string "soon")); reflexivity.
Defined.

(** X4.  A number returned by [_uptime_linux] is either the float parsed
    from the first token of [/proc/uptime], or the first [long] of the
    buffer [sysinfo] filled, read through [libc.so] or, when that one is
    missing, [libc.so.6]; in the second case it is not negative. *)
Theorem uptime_linux_value_origin : forall e s up,
  result_of (_uptime_linux e s) = Ok (Some up) ->
  (exists tok x,
     uptime_token e = Some tok
     /\ Text.parse_float tok = Some x
     /\ up = PyFloat x)
  \/ (exists libc,
        (cdll e "libc.so" = Some libc
         \/ cdll e "libc.so" = None /\ cdll e "libc.so.6" = Some libc)
        /\ ctypes_present e = true
        /\ has_sysinfo libc = true
        /\ up = PyInt (Struct.signed_at (big_endian e) 0 (sizeof_long e)
                         (Struct.buffer_raw 128 (sysinfo_out libc)))
        /\ ltz up = false).
Proof.
  intros e s up H.
  assert (Hlibc : forall v,
            try_ (CDLL e "libc.so")
              (fun x =>
                 match x with
                 | AttributeError => Some (ret None)
                 | OSError =>
                     Some
                       (try_ (CDLL e "libc.so.6")
                          (fun x =>
                             match x with
                             | OSError => Some (ret None)
                             | _ => None
                             end)
                          (sysinfo_read e))
                 | _ => None
                 end)
              (sysinfo_read e) (logged Call_uptime_linux s)
            = (Ok v, logged Call_uptime_linux s) ->
            v = Some up ->
            exists libc,
              (cdll e "libc.so" = Some libc
               \/ cdll e "libc.so" = None /\ cdll e "libc.so.6" = Some libc)
              /\ ctypes_present e = true
              /\ has_sysinfo libc = true
              /\ up = PyInt (Struct.signed_at (big_endian e) 0 (sizeof_long e)
                               (Struct.buffer_raw 128 (sysinfo_out libc)))
              /\ ltz up = false).
  { intros v Hv Hup.
    destruct (libc_sysinfo_outcome e (logged Call_uptime_linux s))
      as [v' [Hv' Hor]].
    rewrite Hv in Hv'. injection Hv' as <-.
    destruct Hor as [-> | [libc [Hl [Hc [Hh [Heq Hn]]]]]]; [discriminate Hup | ].
    exists libc. rewrite Hup in Heq, Hn. injection Heq as Heq.
    repeat split; assumption. }
  destruct (uptime_file_cases e) as [Hn | [Hb | [tok [Ht [Hx | [x Hx]]]]]].
  - right. rewrite uptime_linux_fallback in H by auto.
    destruct (libc_sysinfo_outcome e (logged Call_uptime_linux s))
      as [v [Hv _]].
    rewrite Hv in H. injection H as H. exact (Hlibc v Hv H).
  - rewrite uptime_linux_blank in H by exact Hb. discriminate H.
  - right. rewrite uptime_linux_fallback in H by eauto.
    destruct (libc_sysinfo_outcome e (logged Call_uptime_linux s))
      as [v [Hv _]].
    rewrite Hv in H. injection H as H. exact (Hlibc v Hv H).
  - left. rewrite (uptime_linux_parsed e s tok x) in H by assumption.
    injection H as <-. eauto.
Qed.

(** [sysinfo] reporting 77 s on a machine without procfs. *)
Lemma uptime_linux_value_origin_witness :
  (exists tok x,
     uptime_token (with_libc (linux_libc 77) bare)
     = Some tok
     /\ Text.parse_float tok = Some x
     /\ PyInt 77 = PyFloat x)
  \/ (exists libc,
        (cdll (with_libc (linux_libc 77) bare)
           "libc.so" = Some libc
         \/ cdll (with_libc (linux_libc 77) bare)
              "libc.so" = None
            /\ cdll (with_libc (linux_libc 77) bare)
                 "libc.so.6" = Some libc)
        /\ ctypes_present
             (with_libc (linux_libc 77) bare) = true
        /\ has_sysinfo libc = true
        /\ PyInt 77
           = PyInt (Struct.signed_at
                      (big_endian
                         (with_libc (linux_libc 77)
                            bare))
                      0
                      (sizeof_long
                         (with_libc (linux_libc 77)
                            bare))
                      (Struct.buffer_raw 128 (sysinfo_out libc)))
        /\ ltz (PyInt 77) = false).
Proof.
  apply (uptime_linux_value_origin
           (with_libc (linux_libc 77) bare)
           fresh (PyInt 77)).
  reflexivity.
Defined.

End LinuxAnswers.

(** ** The BSD probe *)

Section BsdProbe.

Variable e : env.

Lemma sysctl_read_cases : forall libc s,
  sysctl_read e libc s
  = if negb (has_sysctlbyname libc)
       || negb (sysctl_size libc =? Z.of_nat (2 * sizeof_long e))
    then (Ok None, s)
    else
      (Ok (if ltz (sub (PyFloat (FFin (clock e (ticks s))))
                     (kern_boottime e libc))
           then None
           else Some (sub (PyFloat (FFin (clock e (ticks s))))
                        (kern_boottime e libc))),
       {| boottime_cache := Some (kern_boottime e libc);
          ticks := S (ticks s);
          calls := calls s ++ [Call_time] |}).
Proof.
  intros libc s. unfold sysctl_read.
  destruct (negb (has_sysctlbyname libc)); [reflexivity | ].
  destruct (negb (sysctl_size libc =? Z.of_nat (2 * sizeof_long e)));
    reflexivity.
Qed.

Lemma uptime_bsd_cases : forall s,
  _uptime_bsd e s
  = match bsd_library e with
    | Some libc => sysctl_read e libc (logged Call_uptime_bsd s)
    | None => (Ok None, logged Call_uptime_bsd s)
    end.
Proof.
  intros s. unfold _uptime_bsd. rewrite bind_record.
  unfold bsd_library, try_, CDLL, ret, raise.
  destruct (ctypes_present e); [ | reflexivity].
  destruct (cdll e "libc.so"); [reflexivity | ].
  destruct (cdll e "libc.dylib"); reflexivity.
Qed.

(** The BSD probe always returns, and never a negative number. *)
Lemma uptime_bsd_returns : forall s,
  exists v s', _uptime_bsd e s = (Ok v, s') /\ not_negative v.
Proof.
  intros s. rewrite uptime_bsd_cases.
  destruct (bsd_library e) as [libc | ];
    [ | do 2 eexists; split; [reflexivity | exact I]].
  rewrite sysctl_read_cases.
  destruct (negb (has_sysctlbyname libc)
            || negb (sysctl_size libc =? Z.of_nat (2 * sizeof_long e)));
    [do 2 eexists; split; [reflexivity | exact I] | ].
  do 2 eexists. split; [reflexivity | ].
  destruct (ltz (sub (PyFloat (FFin (clock e (ticks (logged Call_uptime_bsd s)))))
                   (kern_boottime e libc))) eqn:Hl; [exact I | exact Hl].
Qed.

(** A number returned by the BSD probe goes with a cached instant. *)
Lemma uptime_bsd_caches : forall s up s',
  _uptime_bsd e s = (Ok (Some up), s') ->
  exists b,
    boottime_cache s' = Some b
    /\ up = sub (PyFloat (FFin (clock e (ticks s)))) b
    /\ ticks s' = S (ticks s)
    /\ convertible b = true.
Proof.
  intros s up s' H. rewrite uptime_bsd_cases in H.
  destruct (bsd_library e) as [libc | ]; [ | discriminate H].
  rewrite sysctl_read_cases in H.
  destruct (negb (has_sysctlbyname libc)
            || negb (sysctl_size libc =? Z.of_nat (2 * sizeof_long e)));
    [discriminate H | ].
  cbn [logged ticks calls] in H.
  destruct (ltz (sub (PyFloat (FFin (clock e (ticks s)))) (kern_boottime e libc)));
    [discriminate H | ].
  injection H as <- <-. exists (kern_boottime e libc).
  repeat split; reflexivity.
Qed.

End BsdProbe.

Section BsdAnswers.
Import Scenario.

(** X5.  [_uptime_bsd] never raises: it returns [None] or a number that is
    not negative, and reads the clock at most once. *)
Theorem uptime_bsd_never_raises : forall e s,
  exists v s',
    _uptime_bsd e s = (Ok v, s')
    /\ not_negative v
    /\ (ticks s' = ticks s \/ ticks s' = S (ticks s)).
Proof.
  intros e s. rewrite uptime_bsd_cases.
  destruct (bsd_library e) as [libc | ].
  - rewrite sysctl_read_cases.
    destruct (negb (has_sysctlbyname libc)
              || negb (sysctl_size libc =? Z.of_nat (2 * sizeof_long e))).
    + do 2 eexists. split; [reflexivity | ]. simpl. auto.
    + do 2 eexists. split; [reflexivity | ]. split; [ | right; reflexivity].
      destruct (ltz (sub (PyFloat (FFin (clock e (ticks (logged Call_uptime_bsd s)))))
                       (kern_boottime e libc))) eqn:Hl; simpl; auto.
  - do 2 eexists. split; [reflexivity | ]. simpl. auto.
Qed.

(** X6.  When [_uptime_bsd] returns a number, [__boottime] holds the
    instant read from [kern.boottime] and the number is the clock reading
    minus that instant; the clock was read once. *)
Theorem uptime_bsd_value_is_clock_minus_cache : forall e s up s',
  _uptime_bsd e s = (Ok (Some up), s') ->
  exists libc,
    bsd_library e = Some libc
    /\ boottime_cache s' = Some (kern_boottime e libc)
    /\ up = sub (PyFloat (FFin (clock e (ticks s)))) (kern_boottime e libc)
    /\ ticks s' = S (ticks s)
    /\ calls s' = (calls s ++ [Call_uptime_bsd; Call_time])%list.
Proof.
  intros e s up s' H. rewrite uptime_bsd_cases in H.
  destruct (bsd_library e) as [libc | ]; [ | discriminate H].
  exists libc. split; [reflexivity | ].
  rewrite sysctl_read_cases in H.
  destruct (negb (has_sysctlbyname libc)
            || negb (sysctl_size libc =? Z.of_nat (2 * sizeof_long e)));
    [discriminate H | ].
  cbn [logged ticks calls] in H.
  destruct (ltz (sub (PyFloat (FFin (clock e (ticks s)))) (kern_boottime e libc)));
    [discriminate H | ].
  injection H as <- <-. cbn [boottime_cache ticks calls].
  rewrite <- app_assoc. auto.
Qed.

(** A BSD machine that booted at 400 s, asked at 1000 s. *)
Lemma uptime_bsd_value_is_clock_minus_cache_witness :
  exists libc,
    bsd_library (with_libc (bsd_libc 400 0) bare)
    = Some libc
    /\ boottime_cache
         {| boottime_cache := Some (PyFloat (FFin 400)); ticks := 1;
            calls := [Call_uptime_bsd; Call_time] |}
       = Some (kern_boottime
                 (with_libc (bsd_libc 400 0) bare)
                 libc)
    /\ PyFloat (FFin 600)
       = sub (PyFloat
                (FFin (clock
                         (with_libc (bsd_libc 400 0)
                            bare)
                         (ticks fresh))))
           (kern_boottime
              (with_libc (bsd_libc 400 0) bare)
              libc)
    /\ ticks
         {| boottime_cache := Some (PyFloat (FFin 400)); ticks := 1;
            calls := [Call_uptime_bsd; Call_time] |}
       = S (ticks fresh)
    /\ calls
         {| boottime_cache := Some (PyFloat (FFin 400)); ticks := 1;
            calls := [Call_uptime_bsd; Call_time] |}
       = (calls fresh ++ [Call_uptime_bsd; Call_time])%list.
Proof.
  apply (uptime_bsd_value_is_clock_minus_cache
           (with_libc (bsd_libc 400 0) bare)
           fresh).
  vm_compute. reflexivity.
Defined.

(** X7.  When the size [sysctlbyname] reports for [kern.boottime] is not
    that of two [long]s, [_uptime_bsd] returns [None] and changes nothing
    but the call log: [__boottime] is not written and the clock is not
    read. *)
Theorem uptime_bsd_size_mismatch : forall e s,
  (forall libc,
     bsd_library e = Some libc ->
     sysctl_size libc <> Z.of_nat (2 * sizeof_long e)) ->
  _uptime_bsd e s = (Ok None, logged Call_uptime_bsd s).
Proof.
  intros e s H. rewrite uptime_bsd_cases.
  destruct (bsd_library e) as [libc | ]; [ | reflexivity].
  rewrite sysctl_read_cases.
  destruct (sysctl_size libc =? Z.of_nat (2 * sizeof_long e)) eqn:Hsz.
  - apply Z.eqb_eq in Hsz. elim (H libc eq_refl Hsz).
  - cbn [negb]. rewrite Bool.orb_true_r. reflexivity.
Qed.

(** A library that answers with 8 bytes where 16 are expected. *)
Lemma uptime_bsd_size_mismatch_witness :
  _uptime_bsd
    (with_libc
       {| has_sysinfo := false; sysinfo_rc := -1; sysinfo_out := [];
          has_sysctlbyname := true; sysctl_size := 8;
          sysctl_out := pack_le 8 400 |}
       bare)
    fresh
  = (Ok None, logged Call_uptime_bsd fresh).
Proof.
  apply uptime_bsd_size_mismatch.
  intros libc H. vm_compute in H. injection H as <-. vm_compute. discriminate.
Defined.

End BsdAnswers.

(** ** Numbers the probes compute *)

Section Numbers.

Lemma le_value_nonneg : forall bs, 0 <= Struct.le_value bs.
Proof.
  induction bs as [ | b bs IH].
  - apply Z.le_refl.
  - change (0 <= Z.of_N (Byte.to_N b) + 256 * Struct.le_value bs). lia.
Qed.

Lemma unsigned_at_nonneg : forall be off n raw,
  0 <= Struct.unsigned_at be off n raw.
Proof. intros. unfold Struct.unsigned_at. apply le_value_nonneg. Qed.

Lemma Qred_num_sign : forall q, (0 <= q)%Q -> 0 <= Qnum (Qred q).
Proof.
  intros q H. rewrite <- (Qred_correct q) in H.
  unfold Qle in H. simpl in H. rewrite Z.mul_1_r in H. exact H.
Qed.

Lemma Qred_num_zero : forall q, Qnum (Qred q) = 0 <-> (q == 0)%Q.
Proof.
  intros q. rewrite <- (Qred_correct q) at 2.
  unfold Qeq. simpl. rewrite Z.mul_1_r. reflexivity.
Qed.

End Numbers.

Section BsdInstant.
Import Scenario.

Lemma le_value_bound : forall bs,
  Struct.le_value bs < 2 ^ (8 * Z.of_nat (List.length bs)).
Proof.
  induction bs as [ | b bs IH].
  - reflexivity.
  - change (Z.of_N (Byte.to_N b) + 256 * Struct.le_value bs
            < 2 ^ (8 * Z.of_nat (S (List.length bs)))).
    assert (Hb : Z.of_N (Byte.to_N b) < 256).
    { pose proof (Byte.to_N_bounded b). lia. }
    replace (8 * Z.of_nat (S (List.length bs)))
      with (8 + 8 * Z.of_nat (List.length bs)) by lia.
    rewrite Z.pow_add_r by lia. change (2 ^ 8) with 256. lia.
Qed.

Lemma unsigned_at_bound : forall be off n raw,
  Struct.unsigned_at be off n raw < 2 ^ Z.of_nat (8 * n).
Proof.
  intros be off n raw. unfold Struct.unsigned_at.
  set (field := firstn n (skipn off raw)).
  assert (Hlen : (List.length field <= n)%nat) by apply firstn_le_length.
  assert (Hle : Struct.le_value (if be then rev field else field)
                < 2 ^ (8 * Z.of_nat (List.length field))).
  { destruct be; [ | apply le_value_bound].
    rewrite <- (length_rev field). apply le_value_bound. }
  apply Z.lt_le_trans with (1 := Hle).
  apply Z.pow_le_mono_r; lia.
Qed.

(** X8.  On a platform whose [long] has at most 8 bytes, the boot instant
    the BSD probe computes is a finite float that is not negative and not
    above [2 ^ 64]: both fields of [kern.boottime] are read unsigned, and
    the microseconds add at most one second. *)
Theorem kern_boottime_in_range : forall e libc,
  (sizeof_long e <= 8)%nat ->
  exists q,
    kern_boottime e libc = PyFloat (FFin q)
    /\ (0 <= q)%Q
    /\ (q <= inject_Z (2 ^ 64))%Q
    /\ ltz (kern_boottime e libc) = false.
Proof.
  intros e libc Hsize. unfold kern_boottime.
  set (raw := Struct.buffer_raw (Z.to_nat (sysctl_size libc)) (sysctl_out libc)).
  set (sec := Struct.unsigned_at (big_endian e) 0 (sizeof_long e) raw).
  set (usec := Struct.unsigned_at (big_endian e) (sizeof_long e)
                 (sizeof_long e) raw).
  assert (Hsec : 0 <= sec) by apply unsigned_at_nonneg.
  assert (Hmax : sec < 2 ^ 64).
  { apply Z.lt_le_trans with (2 ^ Z.of_nat (8 * sizeof_long e));
      [apply unsigned_at_bound | ].
    apply Z.pow_le_mono_r; lia. }
  assert (Husec : 0 <= usec) by apply unsigned_at_nonneg.
  assert (Hfrac : exists f,
            fdivc (to_float (if usec >? 1000000
                             then PyFloat (FFin 0) else PyInt usec)) 1000000
            = FFin f /\ (0 <= f)%Q /\ (f <= 1)%Q).
  { destruct (usec >? 1000000) eqn:Hu.
    - exists (Qred (0 / 1000000)). split; [reflexivity | ].
      split; discriminate.
    - exists (Qred (inject_Z usec / 1000000)). split; [reflexivity | ].
      rewrite Qred_correct.
      assert (Hle : usec <= 1000000).
      { destruct (Z.gtb_spec usec 1000000) as [Hgt | Hle];
          [discriminate Hu | exact Hle]. }
      unfold Qle, Qdiv, Qmult, Qinv, inject_Z. simpl. lia. }
  destruct Hfrac as [f [Hf [Hf0 Hf1]]]. rewrite Hf.
  exists (Qred (inject_Z sec + f)). cbn [to_float fadd].
  split; [reflexivity | ].
  assert (H0 : (0 <= inject_Z sec + f)%Q).
  { apply Qle_trans with (inject_Z sec + 0)%Q.
    - rewrite Qplus_0_r. unfold Qle, inject_Z. simpl. lia.
    - apply Qplus_le_compat; [apply Qle_refl | exact Hf0]. }
  split; [rewrite Qred_correct; exact H0 | ].
  split.
  - rewrite Qred_correct.
    apply Qle_trans with (inject_Z sec + 1)%Q.
    + apply Qplus_le_compat; [apply Qle_refl | exact Hf1].
    + change 1%Q with (inject_Z 1).
      rewrite <- inject_Z_plus, <- Zle_Qle. lia.
  - cbn [ltz fltz]. apply Z.ltb_ge. apply Qred_num_sign. exact H0.
Qed.

(** The BSD library of the scenarios, 8-byte longs, booted at 400 s. *)
Lemma kern_boottime_in_range_witness :
  exists q,
    kern_boottime (with_libc (bsd_libc 400 0) bare) (bsd_libc 400 0)
    = PyFloat (FFin q)
    /\ (0 <= q)%Q
    /\ (q <= inject_Z (2 ^ 64))%Q
    /\ ltz (kern_boottime (with_libc (bsd_libc 400 0) bare) (bsd_libc 400 0))
       = false.
Proof.
  apply (kern_boottime_in_range (with_libc (bsd_libc 400 0) bare)
           (bsd_libc 400 0)).
  apply le_n.
Defined.

End BsdInstant.

(** ** The Mac probe *)

Section MacProbe.

Variable e : env.

Lemma uptime_mac_cases : forall s,
  _uptime_mac e s
  = (Ok (match macos_ticks e with
         | Some n =>
             Some (PyFloat (FFin (Qred (inject_Z (Z.of_N n) / (1203 # 20)))))
         | None => None
         end),
     logged Call_uptime_mac s).
Proof.
  intros s. unfold _uptime_mac. rewrite bind_record.
  unfold try_, bind, GetTicks, ret, raise.
  destruct (macos_ticks e); reflexivity.
Qed.

Lemma ticks_seconds_sign : forall n,
  (0 <= inject_Z (Z.of_N n) / (1203 # 20))%Q.
Proof.
  intros n. unfold Qle, Qdiv, Qmult, Qinv, inject_Z. simpl. lia.
Qed.

(** X9.  [_uptime_mac] never raises and only adds its call to the log.  It
    returns [None] exactly when [MacOS] is missing; otherwise a float that
    is not negative, and zero (falsy) exactly when [GetTicks()] is zero. *)
Theorem uptime_mac_outcome : forall s,
  exists v,
    _uptime_mac e s = (Ok v, logged Call_uptime_mac s)
    /\ (v = None <-> macos_ticks e = None)
    /\ not_negative v
    /\ (truthy v = false <-> macos_ticks e = None \/ macos_ticks e = Some 0%N).
Proof.
  intros s. rewrite uptime_mac_cases.
  destruct (macos_ticks e) as [n | ].
  - eexists. split; [reflexivity | ].
    split; [split; discriminate | ].
    cbn [not_negative ltz fltz truthy num_truthy ftruthy].
    split; [apply Z.ltb_ge, Qred_num_sign, ticks_seconds_sign | ].
    rewrite Bool.negb_false_iff, Z.eqb_eq, Qred_num_zero.
    unfold Qeq, Qdiv, Qmult, Qinv, inject_Z. simpl.
    split.
    + intros H. right. f_equal. lia.
    + intros [H | H]; [discriminate H | ]. injection H as ->. reflexivity.
  - exists None. split; [reflexivity | ].
    split; [split; reflexivity | ]. simpl. split; [exact I | ].
    split; auto.
Qed.

End MacProbe.

(** ** The direct Linux read *)

Section StatScan.

Lemma scan_line_other : forall line rest s,
  btime_line line = false -> scan_btime (line :: rest) s = scan_btime rest s.
Proof.
  intros line rest s H. cbn [scan_btime]. fold (btime_line line).
  rewrite H. reflexivity.
Qed.

Lemma scan_line_value : forall line rest z s,
  btime_line line = true ->
  btime_value line = Some z ->
  scan_btime (line :: rest) s = scan_btime rest (cached (PyInt z) s).
Proof.
  intros line rest z s H Hz. cbn [scan_btime]. fold (btime_line line).
  rewrite H. unfold btime_value in Hz. unfold bind at 1 2, item.
  destruct (nth_error (Text.split line) 1) as [tok | ]; [ | discriminate Hz].
  unfold ret at 1, bind at 1, int_. rewrite Hz. reflexivity.
Qed.

Lemma scan_line_missing : forall line rest s,
  btime_line line = true ->
  nth_error (Text.split line) 1 = None ->
  scan_btime (line :: rest) s = (Raise IndexError, s).
Proof.
  intros line rest s H Hn. cbn [scan_btime]. fold (btime_line line).
  rewrite H. unfold bind, item. rewrite Hn. reflexivity.
Qed.

Lemma scan_line_bad : forall line rest tok s,
  btime_line line = true ->
  nth_error (Text.split line) 1 = Some tok ->
  Text.parse_int tok = None ->
  scan_btime (line :: rest) s = (Raise ValueError, s).
Proof.
  intros line rest tok s H Hn Hz. cbn [scan_btime]. fold (btime_line line).
  rewrite H. unfold bind, item, int_. rewrite Hn. unfold ret at 1.
  rewrite Hz. reflexivity.
Qed.

Lemma scan_btime_skips : forall ls s,
  no_btime ls = true -> scan_btime ls s = (Ok tt, s).
Proof.
  induction ls as [ | line rest IH]; intros s H; [reflexivity | ].
  unfold no_btime in H. cbn [forallb] in H.
  apply andb_prop in H. destruct H as [Hl Hr].
  apply Bool.negb_true_iff in Hl.
  rewrite scan_line_other by exact Hl. apply IH. exact Hr.
Qed.

Lemma bind_assoc : forall A B C (m : M A) (f : A -> M B) (g : B -> M C) s,
  bind (bind m f) g s = bind m (fun a => bind (f a) g) s.
Proof.
  intros A B C m f g s. unfold bind.
  destruct (m s) as [[a | x] s1]; reflexivity.
Qed.

Lemma bind_ext : forall A B (m : M A) (f g : A -> M B) s,
  (forall a s1, f a s1 = g a s1) -> bind m f s = bind m g s.
Proof.
  intros A B m f g s H. unfold bind.
  destruct (m s) as [[a | x] s1]; [apply H | reflexivity].
Qed.

(** The loop over two stretches of lines is the loop over the first, then,
    unless that one raised, the loop over the second. *)
Lemma scan_btime_app : forall pre post s,
  scan_btime (pre ++ post) s
  = bind (scan_btime pre) (fun _ => scan_btime post) s.
Proof.
  induction pre as [ | line rest IH]; intros post s; [reflexivity | ].
  cbn [app scan_btime]. rewrite bind_assoc.
  apply bind_ext. intros _ s1. apply IH.
Qed.

(** Lines whose [btime] entries are all well formed are scanned without an
    exception, and only [__boottime] can have changed. *)
Lemma scan_btime_good : forall ls s,
  Forall (fun line => btime_line line = true -> btime_value line <> None) ls ->
  exists c,
    scan_btime ls s
    = (Ok tt, {| boottime_cache := c; ticks := ticks s; calls := calls s |}).
Proof.
  induction ls as [ | line rest IH]; intros s H.
  - exists (boottime_cache s). destruct s; reflexivity.
  - inversion H as [ | ? ? Hl Hr]; subst.
    destruct (btime_line line) eqn:Hb.
    + destruct (btime_value line) as [z | ] eqn:Hz;
        [ | elim (Hl eq_refl); reflexivity].
      rewrite (scan_line_value line rest z) by assumption.
      destruct (IH (cached (PyInt z) s) Hr) as [c Hc]. exists c. exact Hc.
    + rewrite scan_line_other by exact Hb. exact (IH s Hr).
Qed.

End StatScan.

Section StatRead.

Variable e : env.

Lemma fromtimestamp_ok : forall v d,
  fromtimestamp_result e v = Ok d -> v = Some d.
Proof.
  intros v d H. unfold fromtimestamp_result in H.
  destruct v as [[z | [ | b | q]] | ]; try discriminate H;
    destruct (timestamp_ok e _); try discriminate H;
    injection H as <-; reflexivity.
Qed.

Lemma boottime_linux_absent : forall s,
  proc_stat e = None ->
  _boottime_linux e s = (Ok None, logged Call_boottime_linux s).
Proof.
  intros s H. unfold _boottime_linux. rewrite bind_record.
  unfold try_, bind, open. rewrite H. reflexivity.
Qed.

(** [_boottime_linux] in terms of what the loop did. *)
Lemma boottime_linux_scan : forall s content,
  proc_stat e = Some content ->
  _boottime_linux e s
  = match
      scan_btime (Text.lines (Text.read content))
        (logged Call_boottime_linux s)
    with
    | (Ok _, s1) =>
        if datetime_present e
        then (returned_or_none (fromtimestamp_result e (boottime_cache s1)),
              s1)
        else (Raise NotImplementedError, s1)
    | (Raise IOError, s1) | (Raise IndexError, s1) => (Ok None, s1)
    | (Raise x, s1) => (Raise x, s1)
    end.
Proof.
  intros s content H. unfold _boottime_linux. rewrite bind_record.
  unfold try_, open. rewrite H. unfold bind at 1, ret at 1.
  unfold bind at 1.
  destruct (scan_btime (Text.lines (Text.read content))
              (logged Call_boottime_linux s)) as [[[] | x] s1].
  - unfold bind, raise, ret, get_boottime, fromtimestamp.
    destruct (datetime_present e); [ | reflexivity].
    unfold fromtimestamp_result.
    destruct (boottime_cache s1) as [[z | [ | b | q]] | ]; try reflexivity;
      (destruct (timestamp_ok e _); [reflexivity | ]);
      destruct (timestamp_error e _); reflexivity.
  - destruct x; reflexivity.
Qed.

End StatRead.

Section StatAnswers.
Import Scenario.
Local Open Scope string_scope.

(** X10.  Without a [/proc/stat] to open, [_boottime_linux] swallows the
    [IOError]: it returns [None] and only adds its call to the log, whether
    or not [datetime] is available. *)
Theorem boottime_linux_no_stat : forall e s,
  proc_stat e = None ->
  _boottime_linux e s = (Ok None, logged Call_boottime_linux s).
Proof.
  intros e s H. unfold _boottime_linux. rewrite bind_record.
  unfold try_, bind, open. rewrite H. reflexivity.
Qed.

Lemma boottime_linux_no_stat_witness :
  _boottime_linux no_stat_box fresh = (Ok None, logged Call_boottime_linux fresh).
Proof. apply boottime_linux_no_stat. reflexivity. Defined.

(** X11.  When no line of [/proc/stat] starts with [btime], the loop leaves
    [__boottime] alone and [_boottime_linux] hands it as it is to
    [datetime.fromtimestamp], inside the [try]: an [OSError] of that call
    is swallowed like the one of [open] and gives [None]; an unset
    [__boottime] makes the call raise [TypeError], which the probe does
    not catch.  Without [datetime] the [NotImplementedError] comes
    first. *)
Theorem boottime_linux_no_btime_line : forall e s content,
  proc_stat e = Some content ->
  no_btime (Text.lines (Text.read content)) = true ->
  _boottime_linux e s
  = (if datetime_present e
     then returned_or_none (fromtimestamp_result e (boottime_cache s))
     else Raise NotImplementedError,
     logged Call_boottime_linux s)
  /\ (datetime_present e = true ->
      boottime_cache s = None ->
      result_of (_boottime_linux e s) = Raise TypeError).
Proof.
  intros e s content Hc Hn.
  assert (Heq : _boottime_linux e s
                = (if datetime_present e
                   then returned_or_none
                          (fromtimestamp_result e (boottime_cache s))
                   else Raise NotImplementedError,
                   logged Call_boottime_linux s)).
  { rewrite (boottime_linux_scan e s content Hc).
    rewrite scan_btime_skips by exact Hn.
    destruct (datetime_present e); reflexivity. }
  split; [exact Heq | ].
  intros Hd Hb. rewrite Heq, Hd, Hb. reflexivity.
Qed.

Lemma boottime_linux_no_btime_line_witness :
  _boottime_linux (with_procfs None (Some ("cpu  1 2 3 4" ++ nl)) bare) fresh
  = (Raise TypeError, logged Call_boottime_linux fresh).
Proof.
  apply (boottime_linux_no_btime_line
           (with_procfs None (Some ("cpu  1 2 3 4" ++ nl)) bare) fresh
           ("cpu  1 2 3 4" ++ nl)); reflexivity.
Defined.

(** X12.  When the first line of [/proc/stat] that starts with [btime] has
    no second token, the [IndexError] of [split()[1]] is swallowed:
    [_boottime_linux] returns [None], leaves [__boottime] as it was and
    ignores the lines that follow. *)
Theorem boottime_linux_btime_without_value : forall e s content pre line post,
  proc_stat e = Some content ->
  Text.lines (Text.read content) = (pre ++ line :: post)%list ->
  no_btime pre = true ->
  btime_line line = true ->
  nth_error (Text.split line) 1 = None ->
  _boottime_linux e s = (Ok None, logged Call_boottime_linux s).
Proof.
  intros e s content pre line post Hc Hl Hpre Hb Hn.
  rewrite (boottime_linux_scan e s content Hc), Hl, scan_btime_app.
  unfold bind. rewrite scan_btime_skips by exact Hpre.
  rewrite scan_line_missing by assumption. reflexivity.
Qed.

Lemma boottime_linux_btime_without_value_witness :
  _boottime_linux
    (with_procfs None (Some ("cpu 1" ++ nl ++ "btime" ++ nl ++ "btime 7" ++ nl))
       bare)
    fresh
  = (Ok None, logged Call_boottime_linux fresh).
Proof.
  apply (boottime_linux_btime_without_value
           (with_procfs None
              (Some ("cpu 1" ++ nl ++ "btime" ++ nl ++ "btime 7" ++ nl)) bare)
           fresh
           ("cpu 1" ++ nl ++ "btime" ++ nl ++ "btime 7" ++ nl)
           [Text.of_string ("cpu 1" ++ nl)]
           (Text.of_string ("btime" ++ nl))
           [Text.of_string ("btime 7" ++ nl)]); reflexivity.
Defined.

(** X13.  When the second token of that line is not an integer, the
    [ValueError] of [int()] is not among the exceptions the probe handles:
    it leaves [_boottime_linux], with [__boottime] as it was. *)
Theorem boottime_linux_btime_not_integer :
  forall e s content pre line post tok,
  proc_stat e = Some content ->
  Text.lines (Text.read content) = (pre ++ line :: post)%list ->
  no_btime pre = true ->
  btime_line line = true ->
  nth_error (Text.split line) 1 = Some tok ->
  Text.parse_int tok = None ->
  _boottime_linux e s = (Raise ValueError, logged Call_boottime_linux s).
Proof.
  intros e s content pre line post tok Hc Hl Hpre Hb Hn Hz.
  rewrite (boottime_linux_scan e s content Hc), Hl, scan_btime_app.
  unfold bind. rewrite scan_btime_skips by exact Hpre.
  rewrite (scan_line_bad line post tok) by assumption. reflexivity.
Qed.

Lemma boottime_linux_btime_not_integer_witness :
  _boottime_linux (with_procfs None (Some ("btime 17.5" ++ nl)) bare) fresh
  = (Raise ValueError, logged Call_boottime_linux fresh).
Proof.
  apply (boottime_linux_btime_not_integer
           (with_procfs None (Some ("btime 17.5" ++ nl)) bare) fresh
           ("btime 17.5" ++ nl) [] (Text.of_string ("btime 17.5" ++ nl)) []
           (Text.of_string "17.5")); reflexivity.
Defined.

(** X14.  The loop does not stop at the first match: when every [btime]
    line is well formed, the integer of the last one is what ends up in
    [__boottime] and what [datetime.fromtimestamp] receives, inside the
    [try]: an [OSError] of that call gives [None].  The write happens
    before [datetime] is looked at and before the conversion, so it is
    there even when the probe ends in [NotImplementedError], in [None] or
    in another exception of the conversion. *)
Theorem boottime_linux_last_btime_wins :
  forall e s content pre line post z,
  proc_stat e = Some content ->
  Text.lines (Text.read content) = (pre ++ line :: post)%list ->
  Forall (fun l => btime_line l = true -> btime_value l <> None) pre ->
  btime_line line = true ->
  btime_value line = Some z ->
  no_btime post = true ->
  _boottime_linux e s
  = (if datetime_present e
     then returned_or_none (fromtimestamp_result e (Some (PyInt z)))
     else Raise NotImplementedError,
     cached (PyInt z) (logged Call_boottime_linux s)).
Proof.
  intros e s content pre line post z Hc Hl Hpre Hb Hz Hpost.
  rewrite (boottime_linux_scan e s content Hc), Hl, scan_btime_app.
  destruct (scan_btime_good pre (logged Call_boottime_linux s) Hpre)
    as [c Hscan].
  unfold bind. rewrite Hscan.
  rewrite (scan_line_value line post z) by assumption.
  rewrite scan_btime_skips by exact Hpost.
  destruct (datetime_present e); reflexivity.
Qed.

(** Two [btime] lines, the first one ended by a lone CR. *)
Lemma boottime_linux_last_btime_wins_witness :
  _boottime_linux
    (with_procfs None (Some ("btime 5" ++ cr ++ "btime 9" ++ nl ++ "cpu" ++ nl))
       bare)
    fresh
  = (Ok (Some (PyInt 9)), cached (PyInt 9) (logged Call_boottime_linux fresh)).
Proof.
  apply (boottime_linux_last_btime_wins
           (with_procfs None
              (Some ("btime 5" ++ cr ++ "btime 9" ++ nl ++ "cpu" ++ nl)) bare)
           fresh
           ("btime 5" ++ cr ++ "btime 9" ++ nl ++ "cpu" ++ nl)
           [Text.of_string ("btime 5" ++ nl)]
           (Text.of_string ("btime 9" ++ nl))
           [Text.of_string ("cpu" ++ nl)] 9);
    try reflexivity.
  constructor; [ | constructor]. intros _. discriminate.
Defined.

(** X15.  A [datetime] returned by [_boottime_linux] is built from the
    value [__boottime] holds on return; this needs [/proc/stat] and
    [datetime], and the value passed the range check of
    [datetime.fromtimestamp]. *)
Theorem boottime_linux_value_is_cache : forall e s d s',
  _boottime_linux e s = (Ok (Some d), s') ->
  boottime_cache s' = Some d
  /\ datetime_present e = true
  /\ proc_stat e <> None
  /\ fromtimestamp_result e (Some d) = Ok d.
Proof.
  intros e s d s' H.
  destruct (proc_stat e) as [content | ] eqn:Hc.
  - rewrite (boottime_linux_scan e s content Hc) in H.
    destruct (scan_btime (Text.lines (Text.read content))
                (logged Call_boottime_linux s)) as [[[] | x] s1].
    + destruct (datetime_present e); [ | discriminate H].
      destruct (fromtimestamp_result e (boottime_cache s1)) as [d' | x] eqn:Hf;
        [ | destruct x; discriminate H].
      injection H as <- <-.
      pose proof (fromtimestamp_ok e _ _ Hf) as Hv.
      rewrite Hv in Hf. repeat split; try assumption. discriminate.
    + destruct x; discriminate H.
  - rewrite (boottime_linux_absent e s Hc) in H. discriminate H.
Qed.

Lemma boottime_linux_value_is_cache_witness :
  boottime_cache (cached (PyInt 1700000000) (logged Call_boottime_linux fresh))
  = Some (PyInt 1700000000)
  /\ datetime_present linux_box = true
  /\ proc_stat linux_box <> None
  /\ fromtimestamp_result linux_box (Some (PyInt 1700000000))
     = Ok (PyInt 1700000000).
Proof.
  apply (boottime_linux_value_is_cache linux_box fresh). reflexivity.
Defined.

End StatAnswers.

(** ** [uptime()] and [boottime()] as a whole *)

Section Whole.

Variable e : env.

Lemma bind_result_ok : forall A B (m : M A) (k : A -> M B) s b,
  result_of (bind m k s) = Ok b ->
  exists a s1, m s = (Ok a, s1) /\ result_of (k a s1) = Ok b.
Proof.
  intros A B m k s b H. unfold bind in H.
  destruct (m s) as [[a | x] s1]; [eauto | discriminate H].
Qed.

(** A property every probe's result has is a property of the chain's. *)
Lemma or_chain_ok : forall (Q : option num -> Prop),
  Q None ->
  (forall p s, exists v s', run e p s = (Ok v, s') /\ Q v) ->
  forall ps s, exists v s', or_chain e ps s = (Ok v, s') /\ Q v.
Proof.
  intros Q Hnone Hrun. induction ps as [ | p ps IH]; intros s.
  - exists None, s. auto.
  - destruct ps as [ | q ps]; [exact (Hrun p s) | ].
    rewrite or_chain_cons. unfold or_, bind.
    destruct (Hrun p s) as [v [s1 [Hv HQ]]]. rewrite Hv.
    destruct (truthy v); [exists v, s1; auto | apply IH].
Qed.

(** The chain raises only what one of its probes raises. *)
Lemma or_chain_raises : forall (P : exn -> Prop),
  (forall p s x, result_of (run e p s) = Raise x -> P x) ->
  forall ps s x, result_of (or_chain e ps s) = Raise x -> P x.
Proof.
  intros P Hrun. induction ps as [ | p ps IH]; intros s x H.
  - discriminate H.
  - destruct ps as [ | q ps]; [exact (Hrun p s x H) | ].
    rewrite or_chain_cons in H. unfold or_, bind in H.
    destruct (run e p s) as [[v | y] s1] eqn:Hp.
    + destruct (truthy v); [discriminate H | exact (IH s1 x H)].
    + apply (Hrun p s x). rewrite Hp. exact H.
Qed.

Lemma run_raise_blank : forall p s x,
  result_of (run e p s) = Raise x -> x = IndexError /\ blank_uptime e.
Proof.
  intros p s x H. destruct p; cbn [run] in H.
  - exact (uptime_linux_raise_blank e s x H).
  - destruct (uptime_bsd_returns e s) as [v [s' [Hv _]]].
    rewrite Hv in H. discriminate H.
  - rewrite uptime_mac_cases in H. discriminate H.
  - discriminate H.
  - discriminate H.
Qed.

Lemma run_ok : forall p s,
  ~ blank_uptime e ->
  (forall tok x,
     uptime_token e = Some tok -> Text.parse_float tok = Some x ->
     fltz x = false) ->
  not_negative (uptime_posix e) ->
  not_negative (uptime_osx e) ->
  exists v s', run e p s = (Ok v, s') /\ not_negative v.
Proof.
  intros p s Hnb Hpos Hpx Hox. destruct p; cbn [run].
  - destruct (uptime_linux_ok e s Hnb Hpos) as [v [Hv Hn]]. eauto.
  - destruct (uptime_bsd_returns e s) as [v [s' [Hv Hn]]]. eauto.
  - rewrite uptime_mac_cases. do 2 eexists. split; [reflexivity | ].
    destruct (macos_ticks e) as [n | ]; [ | exact I].
    cbn [not_negative ltz fltz].
    apply Z.ltb_ge, Qred_num_sign, ticks_seconds_sign.
  - do 2 eexists. split; [reflexivity | exact Hpx].
  - do 2 eexists. split; [reflexivity | exact Hox].
Qed.

(** [boottime_rest] returns a [datetime] or raises. *)
Lemma boottime_rest_some : forall up s v,
  result_of (boottime_rest e up s) = Ok v ->
  datetime_present e = true /\ v <> None.
Proof.
  intros up s v H. unfold boottime_rest in H.
  apply bind_result_ok in H. destruct H as [b [s1 [_ H]]].
  apply bind_result_ok in H. destruct H as [u1 [s2 [_ H]]].
  apply bind_result_ok in H. destruct H as [u2 [s3 [Hd H]]].
  apply bind_result_ok in H. destruct H as [b' [s4 [_ H]]].
  apply bind_result_ok in H. destruct H as [w [s5 [_ H]]].
  apply bind_result_ok in H. destruct H as [d [s6 [_ H]]].
  injection H as <-. split; [ | discriminate].
  destruct (datetime_present e); [reflexivity | discriminate Hd].
Qed.

Lemma boottime_unset : forall s,
  boottime_cache s = None ->
  boottime e s
  = match uptime e s with
    | (Ok None, s1) => (Ok None, s1)
    | (Ok (Some up), s1) => boottime_rest e (Some up) s1
    | (Raise x, s1) => (Raise x, s1)
    end.
Proof.
  intros s Hs. unfold boottime. rewrite bind_get, Hs. unfold bind.
  destruct (uptime e s) as [[[up | ] | x] s1]; reflexivity.
Qed.

Lemma boottime_set : forall s b,
  boottime_cache s = Some b -> boottime e s = boottime_rest e None s.
Proof. intros s b Hs. unfold boottime. rewrite bind_get, Hs. reflexivity. Qed.

(** [boottime_rest] once the direct read has run (or was skipped) and
    [datetime] is there. *)
Lemma boottime_rest_direct : forall up s r s2,
  boottime_cache s = None ->
  _boottime_linux e s = (Ok r, s2) ->
  datetime_present e = true ->
  boottime_rest e up s
  = bind (if truthy (boottime_cache s2) then ret (boottime_cache s2)
          else
            bind (time_time e)
              (fun now =>
                 match up with
                 | Some up => v <- minus now up;; ret (Some v)
                 | None => raise UnboundLocalError
                 end))
      (fun v => bind (fromtimestamp e v) (fun d => ret (Some d))) s2.
Proof.
  intros up s r s2 Hs Hl Hd. unfold boottime_rest.
  rewrite bind_get, Hs. unfold bind at 1. unfold bind at 1. rewrite Hl.
  unfold ret at 1. unfold bind at 1. rewrite Hd. unfold ret at 1.
  rewrite bind_get. reflexivity.
Qed.

Lemma bind_ok_inv : forall A B (m : M A) (k : A -> M B) s b s',
  bind m k s = (Ok b, s') ->
  exists a s1, m s = (Ok a, s1) /\ k a s1 = (Ok b, s').
Proof.
  intros A B m k s b s' H. unfold bind in H.
  destruct (m s) as [[a | x] s1]; [eauto | discriminate H].
Qed.

(** What the loop of [_boottime_linux] can raise. *)
Lemma scan_btime_raises : forall ls s x s1,
  scan_btime ls s = (Raise x, s1) -> x = IndexError \/ x = ValueError.
Proof.
  induction ls as [ | line rest IH]; intros s x s1 H; [discriminate H | ].
  destruct (btime_line line) eqn:Hb.
  - destruct (nth_error (Text.split line) 1) as [tok | ] eqn:Hn.
    + destruct (Text.parse_int tok) as [z | ] eqn:Hz.
      * rewrite (scan_line_value line rest z) in H;
          [exact (IH _ _ _ H) | exact Hb | ].
        unfold btime_value. rewrite Hn. exact Hz.
      * rewrite (scan_line_bad line rest tok) in H by assumption.
        injection H as <- _. auto.
    + rewrite scan_line_missing in H by assumption.
      injection H as <- _. auto.
  - rewrite scan_line_other in H by exact Hb. exact (IH _ _ _ H).
Qed.

Lemma fromtimestamp_raises : forall v x,
  fromtimestamp_result e v = Raise x ->
  x = TypeError \/ x = ValueError \/ x = OverflowError \/ x = OSError.
Proof.
  intros v x H. unfold fromtimestamp_result in H.
  destruct v as [[z | [ | b | q]] | ];
    try (destruct (timestamp_ok e _); [discriminate H | ];
         destruct (timestamp_error e _));
    injection H as <-; auto.
Qed.

Lemma boottime_linux_raise_bare : forall s x,
  datetime_present e = false ->
  result_of (_boottime_linux e s) = Raise x ->
  x = NotImplementedError \/ x = ValueError.
Proof.
  intros s x Hd H. destruct (proc_stat e) as [content | ] eqn:Hc.
  - rewrite (boottime_linux_scan e s content Hc), Hd in H.
    destruct (scan_btime (Text.lines (Text.read content))
                (logged Call_boottime_linux s)) as [[[] | y] s1] eqn:Hscan.
    + injection H as <-. auto.
    + destruct (scan_btime_raises _ _ _ _ Hscan) as [-> | ->];
        [discriminate H | ].
      injection H as <-. auto.
  - rewrite (boottime_linux_absent e s Hc) in H. discriminate H.
Qed.

Lemma boottime_rest_without_datetime : forall up s,
  datetime_present e = false ->
  exists x s',
    boottime_rest e up s = (Raise x, s')
    /\ (x = NotImplementedError \/ x = ValueError \/ x = RuntimeError).
Proof.
  intros up s Hd. unfold boottime_rest. rewrite bind_get.
  destruct (boottime_cache s) as [b | ].
  - unfold ret at 1. unfold bind at 1. unfold bind at 1. rewrite Hd.
    do 2 eexists. split; [reflexivity | auto].
  - unfold bind at 1. unfold bind at 1.
    destruct (_boottime_linux e s) as [[r | x] s1] eqn:Hl.
    + unfold ret at 1. unfold bind at 1. rewrite Hd.
      do 2 eexists. split; [reflexivity | auto].
    + do 2 eexists. split; [reflexivity | ].
      assert (Hr : result_of (_boottime_linux e s) = Raise x)
        by (rewrite Hl; reflexivity).
      apply (boottime_linux_raise_bare s x Hd) in Hr.
      destruct Hr as [-> | ->]; auto.
Qed.

Lemma boottime_cached_truthy : forall b s,
  num_truthy b = true ->
  datetime_present e = true ->
  boottime e (cached b s)
  = (returned (fromtimestamp_result e (Some b)), cached b s).
Proof.
  intros b s Hb Hd. rewrite (boottime_set (cached b s) b eq_refl).
  unfold boottime_rest. rewrite bind_get. cbn [cached boottime_cache].
  unfold ret at 1. unfold bind at 1. unfold bind at 1. rewrite Hd.
  unfold ret at 1. rewrite bind_get.
  change (boottime_cache (cached b s)) with (Some b). cbn [truthy].
  rewrite Hb. unfold bind, ret, fromtimestamp.
  destruct (fromtimestamp_result e (Some b)); reflexivity.
Qed.

(** A [datetime] that comes out of [boottime_rest] with a truthy
    [__boottime] behind it was built from that [__boottime]. *)
Lemma boottime_rest_stable : forall up s d s',
  boottime_rest e up s = (Ok (Some d), s') ->
  truthy (boottime_cache s') = true ->
  boottime_cache s' = Some d
  /\ fromtimestamp_result e (Some d) = Ok d
  /\ datetime_present e = true.
Proof.
  intros up s d s' H Ht. unfold boottime_rest in H.
  apply bind_ok_inv in H. destruct H as [b [s1 [_ H]]].
  apply bind_ok_inv in H. destruct H as [u1 [s2 [_ H]]].
  apply bind_ok_inv in H. destruct H as [u2 [s3 [Hd H]]].
  apply bind_ok_inv in H. destruct H as [b' [s4 [Hget H]]].
  apply bind_ok_inv in H. destruct H as [w [s5 [Hw H]]].
  apply bind_ok_inv in H. destruct H as [d0 [s6 [Hf H]]].
  unfold ret in H. injection H as <- <-.
  unfold fromtimestamp in Hf. injection Hf as Hf <-.
  unfold get_boottime in Hget. injection Hget as <- <-.
  assert (Hdt : datetime_present e = true).
  { destruct (datetime_present e); [reflexivity | discriminate Hd]. }
  destruct (truthy (boottime_cache s3)) eqn:Hb.
  - unfold ret in Hw. injection Hw as <- <-.
    pose proof (fromtimestamp_ok e _ _ Hf) as Hv.
    rewrite Hv in Hf. auto.
  - exfalso.
    assert (Hc : boottime_cache s5 = boottime_cache s3).
    { unfold bind, time_time, minus in Hw.
      destruct up as [up | ]; [ | discriminate Hw].
      destruct (convertible up); [ | discriminate Hw].
      unfold ret in Hw. injection Hw as _ <-. reflexivity. }
    rewrite Hc, Hb in Ht. discriminate Ht.
Qed.

End Whole.

Section WholeAnswers.
Import Scenario.
Local Open Scope string_scope.

(** X16.  [uptime()] raises in two situations only.  With [__boottime]
    unset, when [/proc/uptime] opens and its first line holds no token: the
    [IndexError] of the Linux probe; no other probe raises.  With
    [__boottime] set to an [int] too large to be converted to a float: the
    [OverflowError] of the subtraction. *)
Theorem uptime_raises_two_ways : forall e s x,
  result_of (uptime e s) = Raise x ->
  (x = IndexError /\ blank_uptime e /\ boottime_cache s = None)
  \/ (x = OverflowError
      /\ exists z,
           boottime_cache s = Some (PyInt z)
           /\ convertible (PyInt z) = false).
Proof.
  intros e s x H.
  destruct (boottime_cache s) as [b | ] eqn:Hs.
  - right. unfold uptime in H. rewrite bind_get, Hs in H.
    unfold bind, time_time, minus in H.
    destruct b as [z | y]; [ | discriminate H].
    destruct (convertible (PyInt z)) eqn:Hc; [discriminate H | ].
    injection H as <-. eauto.
  - left. rewrite uptime_unset in H by exact Hs.
    assert (Hx : x = IndexError /\ blank_uptime e).
    { revert H.
      apply (or_chain_raises e (fun x => x = IndexError /\ blank_uptime e)).
      apply run_raise_blank. }
    destruct Hx as [Hx Hb]. auto.
Qed.

(** An empty [/proc/uptime] on Linux, and the integer [2^1024] cached. *)
Lemma uptime_raises_two_ways_witness :
  ((IndexError = IndexError
    /\ blank_uptime (with_platform "linux" (with_procfs (Some "") None bare))
    /\ boottime_cache fresh = None)
   \/ (IndexError = OverflowError
       /\ exists z,
            boottime_cache fresh = Some (PyInt z)
            /\ convertible (PyInt z) = false))
  /\ ((OverflowError = IndexError
       /\ blank_uptime bare
       /\ boottime_cache (cached (PyInt (2 ^ 1024)) fresh) = None)
      \/ (OverflowError = OverflowError
          /\ exists z,
               boottime_cache (cached (PyInt (2 ^ 1024)) fresh)
               = Some (PyInt z)
               /\ convertible (PyInt z) = false)).
Proof.
  split.
  - apply (uptime_raises_two_ways
             (with_platform "linux" (with_procfs (Some "") None bare)) fresh).
    reflexivity.
  - apply (uptime_raises_two_ways bare (cached (PyInt (2 ^ 1024)) fresh)).
    vm_compute. reflexivity.
Defined.

(** X17.  Starting with [__boottime] unset, when the first line of
    [/proc/uptime] is not blank and holds no negative float, and the two
    POSIX probes return no negative number, [uptime()] returns without an
    exception and its answer is [None] or a number that is not negative. *)
Theorem uptime_not_negative : forall e s,
  boottime_cache s = None ->
  ~ blank_uptime e ->
  (forall tok x,
     uptime_token e = Some tok -> Text.parse_float tok = Some x ->
     fltz x = false) ->
  not_negative (uptime_posix e) ->
  not_negative (uptime_osx e) ->
  exists v s', uptime e s = (Ok v, s') /\ not_negative v.
Proof.
  intros e s Hs Hnb Hpos Hpx Hox. rewrite uptime_unset by exact Hs.
  apply (or_chain_ok e not_negative); [exact I | ].
  intros p s1. apply run_ok; assumption.
Qed.

Lemma uptime_not_negative_witness :
  exists v s', uptime linux_box fresh = (Ok v, s') /\ not_negative v.
Proof.
  apply uptime_not_negative.
  - reflexivity.
  - intros [content [Hc Hb]]. vm_compute in Hc. injection Hc as <-.
    vm_compute in Hb. discriminate Hb.
  - intros tok x Ht Hx. vm_compute in Ht. injection Ht as <-.
    vm_compute in Hx. injection Hx as <-. reflexivity.
  - exact I.
  - exact I.
Defined.

(** X18.  [boottime()] returns [None] in exactly one case: [__boottime] is
    unset and [uptime()] returns [None].  In every other case it returns a
    [datetime] or raises. *)
Theorem boottime_none_iff_uptime_none : forall e s,
  result_of (boottime e s) = Ok None
  <-> boottime_cache s = None /\ result_of (uptime e s) = Ok None.
Proof.
  intros e s. split.
  - intros H. destruct (boottime_cache s) as [b | ] eqn:Hs.
    + rewrite (boottime_set e s b Hs) in H.
      apply boottime_rest_some in H. destruct H as [_ H]. elim H. reflexivity.
    + split; [reflexivity | ].
      rewrite boottime_unset in H by exact Hs.
      destruct (uptime e s) as [[[up | ] | x] s1];
        [ | reflexivity | discriminate H].
      apply boottime_rest_some in H. destruct H as [_ H]. elim H. reflexivity.
  - intros [Hs H]. rewrite boottime_unset by exact Hs.
    destruct (uptime e s) as [[[up | ] | x] s1];
      [discriminate H | reflexivity | discriminate H].
Qed.

(** X19.  Without the [datetime] module [boottime()] never returns a boot
    time.  It returns [None] when [uptime()] does; otherwise it raises: the
    [IndexError] of [uptime()], the [NotImplementedError] or the
    [ValueError] of the direct read, or its own [RuntimeError]. *)
Theorem boottime_without_datetime : forall e s,
  datetime_present e = false ->
  result_of (boottime e s) = Ok None
  \/ exists x,
       result_of (boottime e s) = Raise x
       /\ In x [IndexError; NotImplementedError; ValueError; RuntimeError].
Proof.
  intros e s Hd. destruct (boottime_cache s) as [b | ] eqn:Hs.
  - right. rewrite (boottime_set e s b Hs).
    destruct (boottime_rest_without_datetime e None s Hd) as [x [s' [-> Hx]]].
    exists x. split; [reflexivity | ].
      destruct Hx as [-> | [-> | ->]]; simpl; auto 6.
  - rewrite boottime_unset by exact Hs.
    destruct (uptime e s) as [[[up | ] | x] s1] eqn:Hup.
    + right.
      destruct (boottime_rest_without_datetime e (Some up) s1 Hd)
        as [x [s' [-> Hx]]].
      exists x. split; [reflexivity | ].
      destruct Hx as [-> | [-> | ->]]; simpl; auto 6.
    + left. reflexivity.
    + right. exists x. split; [reflexivity | ].
      assert (Hr : result_of (uptime e s) = Raise x) by (rewrite Hup; reflexivity).
      revert Hr. rewrite uptime_unset by exact Hs.
      intros Hr.
      apply (or_chain_raises e (fun x => x = IndexError /\ blank_uptime e))
        in Hr; [ | apply run_raise_blank].
      destruct Hr as [-> _]. simpl. auto.
Qed.

(** A machine with [/proc/uptime] and nothing else, not even [datetime]. *)
Lemma boottime_without_datetime_witness :
  result_of
    (boottime
       {| platform := "linux"; proc_uptime := Some "5.0 1.0";
          proc_stat := None;
          ctypes_present := false; cdll := fun _ => None;
          sizeof_long := 8; big_endian := false; macos_ticks := None;
          uptime_posix := None; uptime_osx := None;
          datetime_present := false; timestamp_ok := fun _ => true;
          timestamp_error := fun _ => YearOutOfRange;
          clock := clock1000 |}
       fresh)
  = Ok None
  \/ exists x,
       result_of
         (boottime
            {| platform := "linux"; proc_uptime := Some "5.0 1.0";
               proc_stat := None;
               ctypes_present := false; cdll := fun _ => None;
               sizeof_long := 8; big_endian := false; macos_ticks := None;
               uptime_posix := None; uptime_osx := None;
               datetime_present := false; timestamp_ok := fun _ => true;
               timestamp_error := fun _ => YearOutOfRange;
               clock := clock1000 |}
            fresh)
       = Raise x
       /\ In x [IndexError; NotImplementedError; ValueError; RuntimeError].
Proof. apply boottime_without_datetime. reflexivity. Defined.

(** X20.  The direct read wins over the derivation from the uptime: when
    [uptime()] answered [up] without setting [__boottime] and
    [_boottime_linux] then left a truthy instant [b] in it, [boottime()]
    builds its answer from [b]; [up] is not used and the clock is not read
    again. *)
Theorem boottime_direct_read_preferred : forall e s up s1 r s2 b,
  boottime_cache s = None ->
  uptime e s = (Ok (Some up), s1) ->
  boottime_cache s1 = None ->
  _boottime_linux e s1 = (Ok r, s2) ->
  boottime_cache s2 = Some b ->
  num_truthy b = true ->
  datetime_present e = true ->
  boottime e s = (returned (fromtimestamp_result e (Some b)), s2).
Proof.
  intros e s up s1 r s2 b Hs Hup Hs1 Hl Hs2 Hb Hd.
  rewrite boottime_unset by exact Hs. rewrite Hup.
  rewrite (boottime_rest_direct e (Some up) s1 r s2 Hs1 Hl Hd).
  rewrite Hs2. cbn [truthy]. rewrite Hb.
  unfold bind, ret, fromtimestamp.
  destruct (fromtimestamp_result e (Some b)); reflexivity.
Qed.

Lemma boottime_direct_read_preferred_witness :
  boottime linux_box fresh
  = (Ok (Some (PyInt 1700000000)),
     {| boottime_cache := Some (PyInt 1700000000); ticks := 0;
        calls := [Call_uptime_linux; Call_boottime_linux] |}).
Proof.
  apply (boottime_direct_read_preferred linux_box fresh
           (PyFloat (FFin (1234567 # 100)))
           {| boottime_cache := None; ticks := 0;
              calls := [Call_uptime_linux] |}
           (Some (PyInt 1700000000))
           {| boottime_cache := Some (PyInt 1700000000); ticks := 0;
              calls := [Call_uptime_linux; Call_boottime_linux] |}
           (PyInt 1700000000)); reflexivity.
Defined.

(** X21.  When [uptime()] answered without setting [__boottime] and
    [/proc/stat] opens but has no [btime] line, [boottime()] does not fall
    back on the uptime: the [TypeError] of [_boottime_linux] leaves
    [boottime()]. *)
Theorem boottime_stat_without_btime_raises : forall e s up s1 content,
  boottime_cache s = None ->
  uptime e s = (Ok (Some up), s1) ->
  boottime_cache s1 = None ->
  proc_stat e = Some content ->
  no_btime (Text.lines (Text.read content)) = true ->
  datetime_present e = true ->
  boottime e s = (Raise TypeError, logged Call_boottime_linux s1).
Proof.
  intros e s up s1 content Hs Hup Hs1 Hc Hn Hd.
  rewrite boottime_unset by exact Hs. rewrite Hup.
  unfold boottime_rest. rewrite bind_get, Hs1.
  unfold bind at 1. unfold bind at 1.
  rewrite (boottime_linux_scan e s1 content Hc).
  rewrite scan_btime_skips by exact Hn.
  rewrite Hd. cbn [logged boottime_cache]. rewrite Hs1. reflexivity.
Qed.

Lemma boottime_stat_without_btime_raises_witness :
  boottime (with_procfs (Some "5.0 1.0") (Some ("cpu 1" ++ nl)) bare) fresh
  = (Raise TypeError,
     logged Call_boottime_linux
       {| boottime_cache := None; ticks := 0;
          calls := [Call_uptime_bsd; Call_uptime_bsd; Call_uptime_linux] |}).
Proof.
  apply (boottime_stat_without_btime_raises
           (with_procfs (Some "5.0 1.0") (Some ("cpu 1" ++ nl)) bare) fresh
           (PyFloat (FFin 5))
           {| boottime_cache := None; ticks := 0;
              calls := [Call_uptime_bsd; Call_uptime_bsd; Call_uptime_linux] |}
           ("cpu 1" ++ nl)); reflexivity.
Defined.

(** X22.  With a truthy [__boottime] and [datetime] available,
    [boottime()] converts the cached instant and does nothing else: no
    probe runs, the clock is not read and the state is unchanged. *)
Theorem boottime_cached_fast_path : forall e b s,
  num_truthy b = true ->
  datetime_present e = true ->
  boottime e (cached b s)
  = (returned (fromtimestamp_result e (Some b)), cached b s).
Proof.
  intros e b s Hb Hd. rewrite (boottime_set e (cached b s) b eq_refl).
  unfold boottime_rest. rewrite bind_get. cbn [cached boottime_cache].
  unfold ret at 1. unfold bind at 1. unfold bind at 1. rewrite Hd.
  unfold ret at 1. rewrite bind_get.
  change (boottime_cache (cached b s)) with (Some b). cbn [truthy].
  rewrite Hb. unfold bind, ret, fromtimestamp.
  destruct (fromtimestamp_result e (Some b)); reflexivity.
Qed.

Lemma boottime_cached_fast_path_witness :
  boottime bare (cached (PyInt 400) fresh)
  = (Ok (Some (PyInt 400)), cached (PyInt 400) fresh).
Proof.
  apply (boottime_cached_fast_path bare (PyInt 400) fresh); reflexivity.
Defined.

(** X23.  An exception of [uptime()] goes through [boottime()] as it is,
    with the state [uptime()] left. *)
Theorem boottime_propagates_uptime_error : forall e s x s1,
  boottime_cache s = None ->
  uptime e s = (Raise x, s1) ->
  boottime e s = (Raise x, s1).
Proof.
  intros e s x s1 Hs Hup. rewrite boottime_unset by exact Hs.
  rewrite Hup. reflexivity.
Qed.

Lemma boottime_propagates_uptime_error_witness :
  boottime (with_platform "linux" (with_procfs (Some "") None bare)) fresh
  = (Raise IndexError, logged Call_uptime_linux fresh).
Proof.
  apply boottime_propagates_uptime_error; reflexivity.
Defined.

End WholeAnswers.

Section Exceptions.
Import Scenario.
Local Open Scope string_scope.

(** X24.  [_boottime_linux] lets four exceptions out, all of them only
    after [/proc/stat] was opened: the [ValueError] of [int()] or of
    [datetime.fromtimestamp], its own [NotImplementedError] when
    [datetime] is missing, and with [datetime] present the [TypeError] or
    [OverflowError] of [datetime.fromtimestamp].  [IOError] and
    [IndexError] never leave it. *)
Theorem boottime_linux_exceptions : forall e s x,
  result_of (_boottime_linux e s) = Raise x ->
  proc_stat e <> None
  /\ (x = ValueError
      \/ (x = NotImplementedError /\ datetime_present e = false)
      \/ ((x = TypeError \/ x = OverflowError) /\ datetime_present e = true)).
Proof.
  intros e s x H. destruct (proc_stat e) as [content | ] eqn:Hc.
  - split; [discriminate | ].
    rewrite (boottime_linux_scan e s content Hc) in H.
    destruct (scan_btime (Text.lines (Text.read content))
                (logged Call_boottime_linux s)) as [[[] | y] s1] eqn:Hscan.
    + destruct (datetime_present e).
      * destruct (fromtimestamp_result e (boottime_cache s1)) as [d | y] eqn:Hf;
          [discriminate H | ].
        destruct (fromtimestamp_raises e _ _ Hf) as [-> | [-> | [-> | ->]]];
          [ | | | discriminate H]; injection H as <-; auto.
      * injection H as <-. auto.
    + destruct (scan_btime_raises _ _ _ _ Hscan) as [-> | ->];
        [discriminate H | ].
      injection H as <-. auto.
  - rewrite (boottime_linux_absent e s Hc) in H. discriminate H.
Qed.

Lemma boottime_linux_exceptions_witness :
  proc_stat (with_procfs None (Some ("btime 17.5" ++ nl)) bare) <> None
  /\ (ValueError = ValueError
      \/ (ValueError = NotImplementedError
          /\ datetime_present
               (with_procfs None (Some ("btime 17.5" ++ nl)) bare) = false)
      \/ ((ValueError = TypeError \/ ValueError = OverflowError)
          /\ datetime_present
               (with_procfs None (Some ("btime 17.5" ++ nl)) bare) = true)).
Proof.
  apply (boottime_linux_exceptions
           (with_procfs None (Some ("btime 17.5" ++ nl)) bare) fresh).
  reflexivity.
Defined.

(** X25.  The Linux probe keeps no state and reads none: its answer is the
    same whatever [__boottime], the clock and the log are, and all it
    leaves behind is its call in the log. *)
Theorem uptime_linux_stateless : forall e s s',
  result_of (_uptime_linux e s) = result_of (_uptime_linux e s')
  /\ state_of (_uptime_linux e s) = logged Call_uptime_linux s.
Proof.
  intros e s s'. split; [ | apply uptime_linux_state].
  destruct (uptime_file_cases e) as [Hn | [Hb | [tok [Ht [Hx | [x Hx]]]]]].
  - rewrite !uptime_linux_fallback by auto.
    destruct (libc_sysinfo_outcome e (logged Call_uptime_linux s))
      as [v [Hv Hor]].
    destruct (libc_sysinfo_outcome e (logged Call_uptime_linux s'))
      as [v' [Hv' Hor']].
    rewrite Hv, Hv'. cbn [result_of fst]. f_equal. f_equal.
    exact (libc_sysinfo_same e _ _ _ _ Hv Hv').
  - rewrite !uptime_linux_blank by exact Hb. reflexivity.
  - rewrite !uptime_linux_fallback by eauto.
    destruct (libc_sysinfo_outcome e (logged Call_uptime_linux s))
      as [v [Hv Hor]].
    destruct (libc_sysinfo_outcome e (logged Call_uptime_linux s'))
      as [v' [Hv' Hor']].
    rewrite Hv, Hv'. cbn [result_of fst]. f_equal. f_equal.
    exact (libc_sysinfo_same e _ _ _ _ Hv Hv').
  - rewrite !(uptime_linux_parsed e _ tok x) by assumption. reflexivity.
Qed.

(** X26.  After a BSD probe that returned a number, [uptime()] takes the
    short path: both answers are clock readings minus the same boot
    instant, which stays in [__boottime]. *)
Theorem uptime_after_bsd : forall e s up s',
  _uptime_bsd e s = (Ok (Some up), s') ->
  exists b,
    up = sub (PyFloat (FFin (clock e (ticks s)))) b
    /\ result_of (uptime e s')
       = Ok (Some (sub (PyFloat (FFin (clock e (S (ticks s))))) b))
    /\ boottime_cache (state_of (uptime e s')) = Some b.
Proof.
  intros e s up s' H.
  destruct (uptime_bsd_caches e s up s' H) as [b [Hc [Hup [Ht Hconv]]]].
  exists b. split; [exact Hup | ].
  unfold uptime. rewrite bind_get, Hc.
  unfold bind, time_time, minus, ret. rewrite Hconv.
  cbn [result_of state_of fst snd boottime_cache].
  rewrite Ht, Hc. auto.
Qed.

Lemma uptime_after_bsd_witness :
  exists b,
    PyFloat (FFin 600)
    = sub (PyFloat
             (FFin (clock (with_libc (bsd_libc 400 0) bare) (ticks fresh)))) b
    /\ result_of
         (uptime (with_libc (bsd_libc 400 0) bare)
            {| boottime_cache := Some (PyFloat (FFin 400)); ticks := 1;
               calls := [Call_uptime_bsd; Call_time] |})
       = Ok (Some
               (sub (PyFloat
                       (FFin (clock (with_libc (bsd_libc 400 0) bare)
                                (S (ticks fresh)))))
                  b))
    /\ boottime_cache
         (state_of
            (uptime (with_libc (bsd_libc 400 0) bare)
               {| boottime_cache := Some (PyFloat (FFin 400)); ticks := 1;
                  calls := [Call_uptime_bsd; Call_time] |}))
       = Some b.
Proof.
  apply (uptime_after_bsd (with_libc (bsd_libc 400 0) bare) fresh).
  vm_compute. reflexivity.
Defined.

(** X27.  [boottime()] repeats itself once a truthy instant is cached: when
    a call returned a [datetime] and left a truthy [__boottime], the next
    call returns the same [datetime] and changes nothing. *)
Theorem boottime_stable : forall e s d s',
  boottime e s = (Ok (Some d), s') ->
  truthy (boottime_cache s') = true ->
  boottime e s' = (Ok (Some d), s').
Proof.
  intros e s d s' H Ht.
  assert (Hrest : exists up s1, boottime_rest e up s1 = (Ok (Some d), s')).
  { destruct (boottime_cache s) as [b | ] eqn:Hs.
    - rewrite (boottime_set e s b Hs) in H. eauto.
    - rewrite boottime_unset in H by exact Hs.
      destruct (uptime e s) as [[[up | ] | x] s1];
        [eauto | discriminate H | discriminate H]. }
  destruct Hrest as [up [s1 Hrest]].
  destruct (boottime_rest_stable e up s1 d s' Hrest Ht) as [Hc [Hf Hd]].
  rewrite Hc in Ht. cbn [truthy] in Ht.
  assert (Heq : s' = cached d s').
  { destruct s' as [c t l]. cbn [boottime_cache] in Hc. rewrite Hc.
    reflexivity. }
  transitivity (boottime e (cached d s')); [rewrite <- Heq; reflexivity | ].
  rewrite (boottime_cached_truthy e d s' Ht Hd). unfold datetime in *.
  rewrite Hf, <- Heq. reflexivity.
Qed.

Lemma boottime_stable_witness :
  boottime linux_box
    {| boottime_cache := Some (PyInt 1700000000); ticks := 0;
       calls := [Call_uptime_linux; Call_boottime_linux] |}
  = (Ok (Some (PyInt 1700000000)),
     {| boottime_cache := Some (PyInt 1700000000); ticks := 0;
        calls := [Call_uptime_linux; Call_boottime_linux] |}).
Proof.
  apply (boottime_stable linux_box fresh); reflexivity.
Defined.

End Exceptions.
